(** * A shallow embedding of growthstockportfolioallocator

    Sources: [stock.py] (class [Stock]) and [portfolio.py] (class
    [Portfolio]).

    Numbers.  Every numeric value of the program is a Python [float] or a
    numpy [float64].  The program is written once over a class [PyFloat] of
    float operations, with two instances:
    - [xfloat]: exact arithmetic.  Finite values are exact rationals ([Qc], so
      that equality is Leibniz equality), and the IEEE-754 special values
      [+inf], [-inf] and [nan] are kept, with the IEEE rules for them.
      Signed zeros are not distinguished.  Rounding is not modelled.
    - [float] (Rocq's primitive binary64): the arithmetic the program
      really runs, rounding included.

    Division.  numpy division by zero yields [inf] or [nan] without an
    exception; Python [float] division by zero raises [ZeroDivisionError].
    Which of the two applies at each [/] of the source follows the types
    of the operands (see [py_div] and its uses).

    Randomness.  [np.random.normal(loc, scale)] of the global legacy
    generator returns [loc + scale * z] for the next standard normal draw
    [z] and raises [ValueError] when [scale] is negative.  The generator is
    modelled as a stream [gauss : nat -> F] of standard normal draws and a
    position [nat] in it, threaded through a state-and-exception monad. *)

From Stdlib Require Import QArith Qcanon List String Bool ZArith Lia Lqa.
From Stdlib Require Import PrimFloat Uint63.
Import ListNotations.

(** ** Float operations *)

Class PyFloat (F : Type) := {
  f_of_Z : Z -> F;                 (** an integer literal, e.g. [100] or [1e6] *)
  f_add : F -> F -> F;
  f_sub : F -> F -> F;
  f_mul : F -> F -> F;
  f_div : F -> F -> F;             (** IEEE-754 division (numpy semantics) *)
  f_lt : F -> F -> bool;           (** Python/numpy [<], false on nan *)
  f_eq : F -> F -> bool;           (** Python/numpy [==], false on nan *)
  f_nan : F;
  f_signbit : F -> bool            (** [np.signbit] *)
}.

Declare Scope py_scope.
Delimit Scope py_scope with py.
Infix "+." := f_add (at level 50, left associativity) : py_scope.
Infix "-." := f_sub (at level 50, left associativity) : py_scope.
Infix "*." := f_mul (at level 40, left associativity) : py_scope.
Infix "/." := f_div (at level 40, left associativity) : py_scope.
Open Scope py_scope.

Section FloatHelpers.
Context {F : Type} `{PyFloat F}.

(** [np.isnan]: nan is the only value not equal to itself. *)
Definition f_isnan (x : F) : bool := negb (f_eq x x).

(** The decimal literals [0.50] and [0.45] of [_derive_distributions]:
    IEEE division is correctly rounded, so [50/100] and [45/100] are the
    binary64 values of the literals [0.50] and [0.45]. *)
Definition lit_050 : F := f_of_Z 50 /. f_of_Z 100.
Definition lit_045 : F := f_of_Z 45 /. f_of_Z 100.

(** [np.maximum] / [np.minimum] on scalars, as in numpy's [clip] loop:
    nan propagates, otherwise [a > b ? a : b] and [a < b ? a : b]. *)
Definition np_maximum (a b : F) : F :=
  if f_isnan a then a else if f_lt b a then a else b.
Definition np_minimum (a b : F) : F :=
  if f_isnan a then a else if f_lt a b then a else b.

(** [np.clip(a, a_min, a_max)] *)
Definition np_clip (a a_min a_max : F) : F :=
  np_minimum (np_maximum a a_min) a_max.

(** [np.sum] of a list of float64: numpy sums from [0.0]; its pairwise
    regrouping of long arrays is not modelled (it changes nothing in exact
    arithmetic). *)
Definition np_sum (xs : list F) : F := fold_left f_add xs (f_of_Z 0).

End FloatHelpers.

(** ** The exact model: rationals with the IEEE special values *)

Inductive xfloat : Type :=
| Fin (q : Qc)
| Inf (neg : bool)   (** [Inf false] is [+inf], [Inf true] is [-inf] *)
| NaN.

Definition Qc_ltb (a b : Qc) : bool :=
  match (a ?= b)%Qc with Lt => true | _ => false end.
Definition Qc_eqb (a b : Qc) : bool :=
  match (a ?= b)%Qc with Eq => true | _ => false end.

Definition xf_neg (x : xfloat) : xfloat :=
  match x with Fin a => Fin (- a)%Qc | Inf s => Inf (negb s) | NaN => NaN end.

Definition xf_add (x y : xfloat) : xfloat :=
  match x, y with
  | NaN, _ | _, NaN => NaN
  | Fin a, Fin b => Fin (a + b)%Qc
  | Inf s, Inf t => if Bool.eqb s t then Inf s else NaN
  | Inf s, Fin _ | Fin _, Inf s => Inf s
  end.

Definition xf_sub (x y : xfloat) : xfloat := xf_add x (xf_neg y).

Definition xf_mul (x y : xfloat) : xfloat :=
  match x, y with
  | NaN, _ | _, NaN => NaN
  | Fin a, Fin b => Fin (a * b)%Qc
  | Inf s, Inf t => Inf (xorb s t)
  | Inf s, Fin a | Fin a, Inf s =>
      if Qc_eqb a 0 then NaN else Inf (xorb s (Qc_ltb a 0))
  end.

Definition xf_div (x y : xfloat) : xfloat :=
  match x, y with
  | NaN, _ | _, NaN => NaN
  | Fin a, Fin b =>
      if Qc_eqb b 0 then (if Qc_eqb a 0 then NaN else Inf (Qc_ltb a 0))
      else Fin (a / b)%Qc
  | Fin _, Inf _ => Fin 0
  | Inf _, Inf _ => NaN
  | Inf s, Fin b => Inf (xorb s (Qc_ltb b 0))
  end.

(** Comparison; [None] when a nan is involved. *)
Definition xf_cmp (x y : xfloat) : option comparison :=
  match x, y with
  | NaN, _ | _, NaN => None
  | Fin a, Fin b => Some (a ?= b)%Qc
  | Inf s, Inf t => Some (if Bool.eqb s t then Eq else if s then Lt else Gt)
  | Inf s, Fin _ => Some (if s then Lt else Gt)
  | Fin _, Inf s => Some (if s then Gt else Lt)
  end.

#[export] Instance xfloat_ops : PyFloat xfloat := {
  f_of_Z z := Fin (Q2Qc (inject_Z z));
  f_add := xf_add;
  f_sub := xf_sub;
  f_mul := xf_mul;
  f_div := xf_div;
  f_lt x y := match xf_cmp x y with Some Lt => true | _ => false end;
  f_eq x y := match xf_cmp x y with Some Eq => true | _ => false end;
  f_nan := NaN;
  f_signbit x := match x with Fin a => Qc_ltb a 0 | Inf s => s | NaN => false end
}.

(** ** The binary64 model *)

Definition f64_of_Z (z : Z) : float :=
  if (z <? 0)%Z then PrimFloat.opp (of_uint63 (Uint63.of_Z (- z)))
  else of_uint63 (Uint63.of_Z z).

#[export] Instance f64_ops : PyFloat float := {
  f_of_Z := f64_of_Z;
  f_add := PrimFloat.add;
  f_sub := PrimFloat.sub;
  f_mul := PrimFloat.mul;
  f_div := PrimFloat.div;
  f_lt := PrimFloat.ltb;
  f_eq := PrimFloat.eqb;
  f_nan := PrimFloat.nan;
  f_signbit := PrimFloat.get_sign
}.

(** ** Exceptions and the state-and-exception monad *)

Inductive exn : Type := ValueError | ZeroDivisionError | KeyError.

(** A computation that may raise: [inl e] is a raised exception. *)
Definition sbind {A B} (m : exn + A) (k : A -> exn + B) : exn + B :=
  match m with inl e => inl e | inr a => k a end.
Notation "'let?' x ':=' m 'in' k" := (sbind m (fun x => k))
  (at level 200, x name, m at level 100, right associativity).

(** A computation that also draws from the random generator, whose state is
    the position in the stream of standard normal draws.  A raised exception
    leaves the generator where it was when the exception was raised. *)
Definition M (A : Type) : Type := nat -> nat * (exn + A).
Definition mret {A} (a : A) : M A := fun g => (g, inr a).
Definition mlift {A} (r : exn + A) : M A := fun g => (g, r).
Definition mbind {A B} (m : M A) (k : A -> M B) : M B := fun g =>
  match m g with
  | (g', inl e) => (g', inl e)
  | (g', inr a) => k a g'
  end.
Notation "x <- m ;; k" := (mbind m (fun x => k))
  (at level 61, m at next level, right associativity).

(** ** Data *)

(** A spreadsheet row (a [pd.Series] of [import_xlsx]), with the columns
    the [Stock] constructor reads. *)
Record Row (F : Type) := mkRow {
  row_Stock : string;
  row_Industry : string;
  row_MS_Moat : string;
  row_MS_Moat_Trend : string;
  row_MS_Capital_Allocation : string;
  (** 'Research Affiliates 10-year Expected Real Return of US Large Equities' *)
  row_Expected_Real_Return : F;
  (** '10-Year Treasury Note Risk-Free Yield' *)
  row_Risk_Free_Yield : F;
  row_Beta : F;
  row_Common_Shares_Outstanding_M : F;
  row_Tax_Rate : F;
  row_LT_Interest_M : F;
  row_LT_Debt_M : F;
  row_Pfd_Divd_M : F;
  row_Pfd_Stock_M : F;
  row_VL_Cash_Flow_Per_Share : F;
  row_VL_Earnings_Predictability : F;
  row_VL_ROTC : F;
  (** 'VL Retained to Com Eq (Plowback Ratio)' *)
  row_VL_Plowback_Ratio : F;
  row_Current_Price : F
}.
Arguments mkRow {F}.

(** The attributes [Stock.__init__] sets from the row. *)
Record StockInputs (F : Type) := mkStockInputs {
  stock : string;
  industry : string;
  ms_moat : string;
  ms_moat_trend : string;
  ms_capital_allocation : string;
  us_equities_exp_real_return_10y : F;
  us_treasury_note_risk_free_yield_10y : F;
  beta : F;
  common_shares_outstanding : F;
  tax_rate : F;
  long_term_interest_payment : F;
  long_term_debt_balance : F;
  preferred_dividend : F;
  preferred_stock : F;
  vl_cash_flow_per_share : F;
  vl_earnings_predictability : F;
  vl_return_on_total_capital : F;
  vl_retained_earnings_plowback_ratio : F;
  price : F
}.
Arguments mkStockInputs {F}.

(** A constructed [Stock]: its inputs and the attributes derived by
    [_derive_distributions] and [_calculate_wacc]. *)
Record Stock (F : Type) := mkStock {
  attrs : StockInputs F;
  vl_cash_flow_per_share_std_dev : F;
  vl_return_on_total_capital_std_dev : F;
  vl_retained_earnings_plowback_ratio_std_dev : F;
  weighted_average_cost_of_capital : F
}.
Arguments mkStock {F}.

(** A Python dict with string keys, in insertion order. *)
Definition dict (A : Type) : Type := list (string * A).

Definition keys {A} (d : dict A) : list string := map fst d.

(** [d[k]] ([None]: the key is missing). *)
Fixpoint dict_get {A} (d : dict A) (k : string) : option A :=
  match d with
  | [] => None
  | (k', v) :: d' => if String.eqb k k' then Some v else dict_get d' k
  end.

(** [d[k] = v]: overwrites in place, or appends a new key. *)
Fixpoint dict_set {A} (d : dict A) (k : string) (v : A) : dict A :=
  match d with
  | [] => [(k, v)]
  | (k', v') :: d' =>
      if String.eqb k k' then (k', v) :: d' else (k', v') :: dict_set d' k v
  end.

(** A float64 [pd.DataFrame]: column labels and rows. *)
Record Frame (F : Type) := mkFrame {
  frame_columns : list string;
  frame_data : list (list F)
}.
Arguments mkFrame {F}.

(** A [Portfolio] object.  [allocation_trials] is [None] while the
    attribute does not exist yet (before the first [allocate]). *)
Record Portfolio (F : Type) := mkPortfolio {
  stocks : dict (Stock F);
  mean_allocations : option (dict F);
  allocation_trials : option (Frame F)
}.
Arguments mkPortfolio {F}.

(** ** [Stock] *)

Section StockModel.
Context {F : Type} `{PyFloat F}.

(** Python [float] division [a / b]: raises [ZeroDivisionError] when [b]
    is zero.  The attributes of a [Stock] are Python floats: [import_xlsx]
    builds each row with [DataFrame.iterrows] over a frame of mixed column
    types, whose rows hold Python scalars; and [np.random.normal] with
    scalar arguments returns a Python [float]. *)
Definition py_div (a b : F) : exn + F :=
  if f_eq b (f_of_Z 0) then inl ZeroDivisionError else inr (a /. b).

(** [Stock.__init__], lines setting the attributes from the row. *)
Definition stock_attributes (row : Row F) : StockInputs F := {|
  stock := row_Stock _ row;
  industry := row_Industry _ row;
  ms_moat := row_MS_Moat _ row;
  ms_moat_trend := row_MS_Moat_Trend _ row;
  ms_capital_allocation := row_MS_Capital_Allocation _ row;
  us_equities_exp_real_return_10y := row_Expected_Real_Return _ row /. f_of_Z 100;
  us_treasury_note_risk_free_yield_10y := row_Risk_Free_Yield _ row /. f_of_Z 100;
  beta := row_Beta _ row;
  common_shares_outstanding := row_Common_Shares_Outstanding_M _ row *. f_of_Z 1000000;
  tax_rate := row_Tax_Rate _ row /. f_of_Z 100;
  long_term_interest_payment := row_LT_Interest_M _ row *. f_of_Z 1000000;
  long_term_debt_balance := row_LT_Debt_M _ row *. f_of_Z 1000000;
  preferred_dividend := row_Pfd_Divd_M _ row *. f_of_Z 1000000;
  preferred_stock := row_Pfd_Stock_M _ row *. f_of_Z 1000000;
  vl_cash_flow_per_share := row_VL_Cash_Flow_Per_Share _ row;
  vl_earnings_predictability := row_VL_Earnings_Predictability _ row /. f_of_Z 100;
  vl_return_on_total_capital := row_VL_ROTC _ row /. f_of_Z 100;
  vl_retained_earnings_plowback_ratio := row_VL_Plowback_Ratio _ row /. f_of_Z 100;
  price := row_Current_Price _ row
|}.

(** The factor [(0.50 - 0.45*self.vl_earnings_predictability)] that
    [_derive_distributions] writes in each of its three lines. *)
Definition dispersion_factor (p : F) : F := lit_050 -. lit_045 *. p.

(** [Stock._derive_distributions]: the standard deviations of cash flow per
    share, return on total capital and plowback ratio, in that order. *)
Definition _derive_distributions (s : StockInputs F) : F * F * F :=
  (dispersion_factor (vl_earnings_predictability _ s) *. vl_cash_flow_per_share _ s,
   dispersion_factor (vl_earnings_predictability _ s) *. vl_return_on_total_capital _ s,
   dispersion_factor (vl_earnings_predictability _ s)
     *. vl_retained_earnings_plowback_ratio _ s).

(** [_calculate_wacc], cost of debt. *)
Definition after_tax_historical_cost_of_debt (s : StockInputs F) : exn + F :=
  if f_lt (f_of_Z 0) (long_term_debt_balance _ s) then
    let? c := py_div (long_term_interest_payment _ s) (long_term_debt_balance _ s) in
    inr (c *. (f_of_Z 1 -. tax_rate _ s))
  else inr (f_of_Z 0).

(** [_calculate_wacc], cost of preferred equity. *)
Definition cost_of_preferred_equity (s : StockInputs F) : exn + F :=
  if f_lt (f_of_Z 0) (preferred_stock _ s) then
    py_div (preferred_dividend _ s) (preferred_stock _ s)
  else inr (f_of_Z 0).

(** [_calculate_wacc], cost of equity. *)
Definition cost_of_equity (s : StockInputs F) : F :=
  us_treasury_note_risk_free_yield_10y _ s
  +. beta _ s *. us_equities_exp_real_return_10y _ s.

(** [_calculate_wacc], cost of capital. *)
Definition total_capital (s : StockInputs F) : F :=
  long_term_debt_balance _ s +. preferred_stock _ s
  +. common_shares_outstanding _ s *. price _ s.

(** [Stock._calculate_wacc] *)
Definition _calculate_wacc (s : StockInputs F) : exn + F :=
  let? after_tax_historical_cost_of_debt := after_tax_historical_cost_of_debt s in
  let? cost_of_preferred_equity := cost_of_preferred_equity s in
  let cost_of_equity := cost_of_equity s in
  let total_capital := total_capital s in
  py_div (after_tax_historical_cost_of_debt *. long_term_debt_balance _ s
          +. cost_of_preferred_equity *. preferred_stock _ s
          +. cost_of_equity *. common_shares_outstanding _ s *. price _ s)
         total_capital.

(** [Stock.__init__] *)
Definition Stock_init (row : Row F) : exn + Stock F :=
  let s := stock_attributes row in
  let '(cf_sd, rotc_sd, pb_sd) := _derive_distributions s in
  let? wacc := _calculate_wacc s in
  inr (mkStock s cf_sd rotc_sd pb_sd wacc).

Variable gauss : nat -> F.

(** numpy's check on the [scale] argument of [normal]: refused when its
    sign bit is set, unless it is nan. *)
Definition scale_ok (scale : F) : bool :=
  negb (negb (f_isnan scale) && f_signbit scale).

(** [np.random.normal(loc, scale)]: [ValueError] on a refused scale,
    otherwise [loc + scale * z] for the next standard normal draw [z]. *)
Definition normal (loc scale : F) : M F := fun g =>
  if scale_ok scale then (S g, inr (loc +. scale *. gauss g))
  else (g, inl ValueError).

(** [Stock.roll_once]: (operating profit growth rate, price / cash flow,
    value ratio).  [np.clip] returns a [float64], so the growth rate is a
    [float64] and the last division has numpy semantics; [self.price] and
    [cash_flow] are Python floats, so [self.price/cash_flow] raises on a zero
    cash flow. *)
Definition roll_once (s : Stock F) : M (F * F * F) :=
  rotc <- normal (vl_return_on_total_capital _ (attrs _ s))
                 (vl_return_on_total_capital_std_dev _ s) ;;
  plowback_ratio <- normal (vl_retained_earnings_plowback_ratio _ (attrs _ s))
                           (vl_retained_earnings_plowback_ratio_std_dev _ s) ;;
  let plowback_ratio := np_clip plowback_ratio (f_of_Z 0) (f_of_Z 1) in
  let excess_return_on_total_capital := rotc -. weighted_average_cost_of_capital _ s in
  let operating_profit_growth_rate :=
    f_of_Z 100 *. excess_return_on_total_capital *. plowback_ratio in
  cash_flow <- normal (vl_cash_flow_per_share _ (attrs _ s))
                      (vl_cash_flow_per_share_std_dev _ s) ;;
  price_to_cash_flow <- mlift (py_div (price _ (attrs _ s)) cash_flow) ;;
  let ratio := operating_profit_growth_rate /. price_to_cash_flow in
  mret (operating_profit_growth_rate, price_to_cash_flow, ratio).

End StockModel.

(** ** [Portfolio] *)

Section PortfolioModel.
Context {F : Type} `{PyFloat F}.
Variable gauss : nat -> F.

(** [Portfolio.__init__] *)
Definition Portfolio_init (stocks : dict (Stock F)) : Portfolio F :=
  mkPortfolio stocks None None.

(** First loop of [_allocate_once]:
    [for stock in self.stocks.keys(): ... ratios[stock] = ratio].
    Iterating over the items of a dict is iterating over its keys and
    looking each one up. *)
Fixpoint roll_ratios (items : dict (Stock F)) (ratios : dict F) : M (dict F) :=
  match items with
  | [] => mret ratios
  | (k, s) :: items' =>
      r <- roll_once gauss s ;;
      let '(_, _, ratio) := r in
      roll_ratios items' (dict_set ratios k ratio)
  end.

(** Second loop of [_allocate_once]:
    [allocations[stock] = ratios[stock]/sum_ratios]; [sum_ratios] is a
    [float64], so the division has numpy semantics. *)
Fixpoint normalize (ks : list string) (ratios : dict F) (sum_ratios : F)
    (allocations : dict F) : exn + dict F :=
  match ks with
  | [] => inr allocations
  | k :: ks' =>
      match dict_get ratios k with
      | None => inl KeyError
      | Some r => normalize ks' ratios sum_ratios (dict_set allocations k (r /. sum_ratios))
      end
  end.

(** [Portfolio._allocate_once] *)
Definition _allocate_once (stocks : dict (Stock F)) : M (dict F) :=
  ratios <- roll_ratios stocks [] ;;
  let sum_ratios := np_sum (map snd ratios) in
  mlift (normalize (keys stocks) ratios sum_ratios []).

(** [df.iloc[i, :] = d] for a dict [d]: pandas aligns the dict on the
    column labels; a label missing from the dict gets nan. *)
Definition align (columns : list string) (d : dict F) : list F :=
  map (fun c => match dict_get d c with Some v => v | None => f_nan end) columns.

(** Replace the [i]-th row ([i] is always in range here). *)
Fixpoint set_nth {A} (i : nat) (x : A) (l : list A) : list A :=
  match l, i with
  | [], _ => []
  | _ :: l', O => x :: l'
  | y :: l', S i' => y :: set_nth i' x l'
  end.

(** The loop [for i in range(iterations): self.allocation_trials.iloc[i, :]
    = self._allocate_once()].  The frame is updated in place, so when a
    trial raises, the rows written so far stay written. *)
Fixpoint fill_trials (stocks : dict (Stock F)) (idx : list nat) (fr : Frame F)
    (g : nat) : Frame F * nat * option exn :=
  match idx with
  | [] => (fr, g, None)
  | i :: idx' =>
      match _allocate_once stocks g with
      | (g', inl e) => (fr, g', Some e)
      | (g', inr allocations) =>
          fill_trials stocks idx'
            (mkFrame (frame_columns _ fr)
                     (set_nth i (align (frame_columns _ fr) allocations) (frame_data _ fr)))
            g'
      end
  end.

(** [Series.mean()] of a float64 column (pandas [nanmean], [skipna=True]):
    nan entries are filled with [0] for the sum and not counted; with no
    entry left the mean is nan. *)
Definition nanmean (xs : list F) : F :=
  let count := List.length (filter (fun x => negb (f_isnan x)) xs) in
  if Nat.eqb count 0 then f_nan
  else np_sum (map (fun x => if f_isnan x then f_of_Z 0 else x) xs)
       /. f_of_Z (Z.of_nat count).

Definition column (j : nat) (rows : list (list F)) : list F :=
  map (fun row => nth j row f_nan) rows.

(** [DataFrame.mean()]: one mean per column, indexed by the labels. *)
Definition frame_mean (fr : Frame F) : dict F :=
  combine (frame_columns _ fr)
    (map (fun j => nanmean (column j (frame_data _ fr)))
         (seq 0 (List.length (frame_columns _ fr)))).

(** [Portfolio.allocate]: the new state of the object, the generator state,
    and the exception raised, if any.  [np.zeros] refuses a negative
    dimension with [ValueError] before anything is assigned. *)
Definition allocate (iterations : Z) (self : Portfolio F) (g : nat)
    : Portfolio F * nat * option exn :=
  if (iterations <? 0)%Z then (self, g, Some ValueError)
  else
    let columns := keys (stocks _ self) in
    let trials := mkFrame columns
                    (repeat (repeat (f_of_Z 0) (List.length columns)) (Z.to_nat iterations)) in
    match fill_trials (stocks _ self) (seq 0 (Z.to_nat iterations)) trials g with
    | (fr, g', Some e) =>
        (mkPortfolio (stocks _ self) (mean_allocations _ self) (Some fr), g', Some e)
    | (fr, g', None) =>
        (mkPortfolio (stocks _ self) (Some (frame_mean fr)) (Some fr), g', None)
    end.

End PortfolioModel.

(** ** The rest of [stock.py] and [portfolio.py] *)

(** The errors of [Portfolio.plot_histograms]: one of [exn], or the
    [AttributeError] of reading [self.allocation_trials] before it exists. *)
Inductive exn_attr : Type := Exn (e : exn) | AttributeError.

Section MoreCode.
Context {F : Type} `{PyFloat F}.
Variable gauss : nat -> F.

(** [import_xlsx] after [pd.read_excel]: the comprehension
    [{row['Stock']: Stock(row) for _, row in data.iterrows()}] over the rows
    of the sheet, in order; a later row with the same name overwrites the
    value of the earlier one in place. *)
Fixpoint import_rows (rows : list (Row F)) (acc : dict (Stock F)) : exn + dict (Stock F) :=
  match rows with
  | [] => inr acc
  | row :: rows' =>
      let? s := Stock_init row in
      import_rows rows' (dict_set acc (row_Stock _ row) s)
  end.

Definition import_xlsx (rows : list (Row F)) : exn + dict (Stock F) := import_rows rows [].

(** The loop of [Stock.plot_metric_histograms]: [n] calls of [roll_once],
    in order. *)
Fixpoint roll_rows (n : nat) (s : Stock F) : M (list (F * F * F)) :=
  match n with
  | O => mret []
  | S n' =>
      t <- roll_once gauss s ;;
      ts <- roll_rows n' s ;;
      mret (t :: ts)
  end.

(** [Stock.plot_metric_histograms]: [np.zeros((iterations, 3))] refuses a
    negative count with [ValueError]; then the figure titled with the
    stock's name shows the three columns of [values_df] (growth rates,
    price / cash flow, value ratios).  The model returns the title and the
    three columns; the layout of the figure is not modelled. *)
Definition plot_metric_histograms (iterations : Z) (s : Stock F)
    : M (string * list F * list F * list F) := fun g =>
  if (iterations <? 0)%Z then (g, inl ValueError)
  else
    (rows <- roll_rows (Z.to_nat iterations) s ;;
     mret (stock _ (attrs _ s),
           map (fun '(a, _, _) => a) rows,
           map (fun '(_, b, _) => b) rows,
           map (fun '(_, _, c) => c) rows)) g.

(** The position of a column label (the labels of a trial frame are the
    keys of a dict, hence distinct). *)
Fixpoint index_of (cols : list string) (c : string) : option nat :=
  match cols with
  | [] => None
  | c' :: cols' =>
      if String.eqb c c' then Some O
      else match index_of cols' c with Some j => Some (S j) | None => None end
  end.

(** [df[label]]: the column, or [KeyError]. *)
Definition frame_get (fr : Frame F) (c : string) : exn + list F :=
  match index_of (frame_columns _ fr) c with
  | Some j => inr (column j (frame_data _ fr))
  | None => inl KeyError
  end.

(** The loop of [Portfolio.plot_histograms]:
    [for stock in self.stocks.keys(): fig.add_trace(go.Histogram(
    x=self.allocation_trials[stock].to_numpy(), ..., name=stock))].
    Each iteration reads the attribute [allocation_trials], which does not
    exist before the first [allocate] ([AttributeError]), then the column of
    the stock ([KeyError] when it is missing). *)
Fixpoint histograms (ks : list string) (trials : option (Frame F))
    : exn_attr + list (string * list F) :=
  match ks with
  | [] => inr []
  | k :: ks' =>
      match trials with
      | None => inl AttributeError
      | Some fr =>
          match frame_get fr k with
          | inl e => inl (Exn e)
          | inr col =>
              match histograms ks' trials with
              | inl e => inl e
              | inr rest => inr ((k, col) :: rest)
              end
          end
      end
  end.

(** [Portfolio.plot_histograms]: the traces of the figure, or the
    exception raised. *)
Definition plot_histograms (p : Portfolio F) : exn_attr + list (string * list F) :=
  histograms (keys (stocks _ p)) (allocation_trials _ p).

(** [Portfolio.__repr__]: ['Portfolio'] while [mean_allocations] is not a
    Series, otherwise [str] of the Series of mean allocations (the model
    keeps its (label, value) pairs, not pandas' text layout). *)
Definition Portfolio_repr (p : Portfolio F) : string + dict F :=
  match mean_allocations _ p with
  | None => inl "Portfolio"%string
  | Some m => inr m
  end.

End MoreCode.

(** ** Concrete inputs used by the witnesses and counterexamples *)

(** A spreadsheet row with the given name and numeric columns, in the order
    of [Row]; the qualitative columns are left empty. *)
Definition example_row {F} (name : string)
    (erp rf beta shares tax interest debt pfd_div pfd_stock cfps pred rotc plowback price : F)
    : Row F :=
  mkRow name ""%string ""%string ""%string ""%string
        erp rf beta shares tax interest debt pfd_div pfd_stock cfps pred rotc plowback price.

Definition xz (z : Z) : xfloat := f_of_Z z.

(** A standard normal stream whose every draw is [0]: each draw returns
    its mean. *)
Definition gauss_zero : nat -> xfloat := fun _ => xz 0.

(** No debt, no preferred stock, risk-free yield 0%, ROTC 50%, plowback
    100%, cash flow per share 1, price 50: WACC 0, value ratio 1. *)
Definition row_up : Row xfloat :=
  example_row "UP"%string (xz 0) (xz 0) (xz 0) (xz 1) (xz 0) (xz 0) (xz 0) (xz 0) (xz 0)
              (xz 1) (xz 100) (xz 50) (xz 100) (xz 50).

(** As [row_up] with a risk-free yield of 100%: WACC 1, value ratio -1. *)
Definition row_down : Row xfloat :=
  example_row "DOWN"%string (xz 0) (xz 100) (xz 0) (xz 1) (xz 0) (xz 0) (xz 0) (xz 0) (xz 0)
              (xz 1) (xz 100) (xz 50) (xz 100) (xz 50).

(** As [row_up] with a price of 25: value ratio 2. *)
Definition row_half_price : Row xfloat :=
  example_row "HALF"%string (xz 0) (xz 0) (xz 0) (xz 1) (xz 0) (xz 0) (xz 0) (xz 0) (xz 0)
              (xz 1) (xz 100) (xz 50) (xz 100) (xz 25).

(** As [row_up] with a cash flow per share of 0. *)
Definition row_no_cash : Row xfloat :=
  example_row "NOCASH"%string (xz 0) (xz 0) (xz 0) (xz 1) (xz 0) (xz 0) (xz 0) (xz 0) (xz 0)
              (xz 0) (xz 100) (xz 50) (xz 100) (xz 50).

(** The stocks of a list of rows, or the first exception. *)
Fixpoint stocks_of_rows {F} `{PyFloat F} (rows : list (Row F)) : exn + dict (Stock F) :=
  match rows with
  | [] => inr []
  | r :: rows' =>
      let? s := Stock_init r in
      let? d := stocks_of_rows rows' in
      inr ((row_Stock _ r, s) :: d)
  end.

(** Binary64: full earnings predictability (100%), cash flow per share 1,
    ROTC 10%, plowback 50%, equity only. *)
Definition row_predictable : Row float :=
  example_row "PRED"%string 5%float 1%float 1%float 3%float 21%float 0%float 0%float 0%float
              0%float 1%float 100%float 10%float 50%float 10%float.

(** Binary64: equity only (no debt, no preferred stock), risk-free yield 1%,
    beta 0.5, expected real return 5%, 3M shares at price 10. *)
Definition row_equity_only : Row float :=
  example_row "EQ"%string 5%float 1%float 0.5%float 3%float 21%float 0%float 0%float 0%float
              0%float 1%float 50%float 10%float 50%float 10%float.
(** Binary64: no debt, no preferred stock, risk-free yield 0%, ROTC 50%,
    plowback 100%, cash flow per share 1 and a price of 5e-307: WACC 0
    and value ratio 1e308. *)
Definition row_tiny_price (name : string) : Row float :=
  example_row name 0%float 0%float 0%float 1%float 0%float 0%float 0%float 0%float
              0%float 1%float 100%float 50%float 100%float 5e-307%float.

(** Binary64: every standard normal draw is [0]. *)
Definition gauss_zero64 : nat -> float := fun _ => 0%float.

(** Binary64: no debt, no preferred stock, risk-free yield 0%, earnings
    predictability 0% (dispersion factor exactly 0.5), ROTC 50%, plowback
    100%, cash flow per share 1, price 50: WACC 0 and, with every draw 0,
    value ratio 1. *)
Definition row_unpredictable : Row float :=
  example_row "U"%string 0%float 0%float 0%float 1%float 0%float 0%float 0%float 0%float
              0%float 1%float 0%float 50%float 100%float 50%float.

(** Binary64: a standard normal stream whose draws are all [0] except the
    sixth, [-2]. *)
Definition gauss_sixth_neg2 : nat -> float :=
  fun i => if Nat.eqb i 5 then (-2)%float else 0%float.

(** A standard normal stream whose draws are all [0] except the second,
    [z]: the plowback draw of the first call of [roll_once]. *)
Definition gauss_plow (z : Z) : nat -> xfloat :=
  fun i => if Nat.eqb i 1 then xz z else xz 0.

(** A standard normal stream whose draws are all [0] except the third,
    [10], and the seventh, [-10]. *)
Definition gauss_two_trials : nat -> xfloat :=
  fun i => if Nat.eqb i 2 then xz 10 else if Nat.eqb i 6 then xz (-10) else xz 0.

(** The stock built from a row, or a placeholder when the constructor
    raises (never the case for the rows above). *)
Definition stock_of_row (r : Row xfloat) : Stock xfloat :=
  match Stock_init r with
  | inr s => s
  | inl _ => mkStock (stock_attributes r) (xz 0) (xz 0) (xz 0) (xz 0)
  end.

Definition stock_up : Stock xfloat := stock_of_row row_up.

Definition stock_no_cash : Stock xfloat := stock_of_row row_no_cash.

(** As [row_up] with a ROTC of -10%: its ROTC standard deviation is
    negative. *)
Definition row_neg_rotc : Row xfloat :=
  example_row "NEG"%string (xz 0) (xz 0) (xz 0) (xz 1) (xz 0) (xz 0) (xz 0) (xz 0) (xz 0)
              (xz 1) (xz 100) (xz (-10)) (xz 100) (xz 50).

(** * Facts about the exact model *)

Lemma Qc_eqb_true (a b : Qc) : Qc_eqb a b = true <-> a = b.
Proof. unfold Qc_eqb. rewrite Qceq_alt. destruct (a ?= b)%Qc; split; congruence. Qed.

Lemma Qc_ltb_true (a b : Qc) : Qc_ltb a b = true <-> (a < b)%Qc.
Proof. unfold Qc_ltb. rewrite Qclt_alt. destruct (a ?= b)%Qc; split; congruence. Qed.

Lemma Qc_eqb_false (a b : Qc) : Qc_eqb a b = false <-> a <> b.
Proof.
  rewrite <- Qc_eqb_true. destruct (Qc_eqb a b); split; congruence.
Qed.

Lemma Qc_ltb_false (a b : Qc) : Qc_ltb a b = false <-> (b <= a)%Qc.
Proof.
  split; intro E.
  - apply Qcnot_lt_le. rewrite <- Qc_ltb_true. congruence.
  - destruct (Qc_ltb a b) eqn:E'; [|reflexivity].
    apply Qc_ltb_true in E'. exfalso. exact (Qcle_not_lt _ _ E E').
Qed.

Lemma Qc_cmp_refl (a : Qc) : (a ?= a)%Qc = Eq.
Proof. apply Qceq_alt. reflexivity. Qed.

Lemma xf_of_Z_0 : (f_of_Z 0 : xfloat) = Fin 0.
Proof. reflexivity. Qed.

Lemma xf_of_Z_1 : (f_of_Z 1 : xfloat) = Fin 1.
Proof. reflexivity. Qed.

(** [x < y] excludes [y == x]. *)
Lemma xf_lt_eq_false (x y : xfloat) : f_lt x y = true -> f_eq y x = false.
Proof.
  destruct x as [a|[]|], y as [b|[]|]; simpl; try reflexivity; try discriminate.
  unfold Qccompare. rewrite <- (Qcompare_antisym a b).
  destruct (Qcompare a b); simpl; congruence.
Qed.

(** [x < y] excludes [y < x]. *)
Lemma xf_lt_asym (x y : xfloat) : f_lt x y = true -> f_lt y x = false.
Proof.
  destruct x as [a|[]|], y as [b|[]|]; simpl; try reflexivity; try discriminate.
  unfold Qccompare. rewrite <- (Qcompare_antisym a b).
  destruct (Qcompare a b); simpl; congruence.
Qed.

Lemma xf_isnan_false_of_lt (x y : xfloat) : f_lt x y = true -> f_isnan x = false.
Proof.
  destruct x as [a|[]|], y as [b|[]|]; simpl; try discriminate; unfold f_isnan; simpl;
    try reflexivity.
  all: intros _; rewrite Qc_cmp_refl; reflexivity.
Qed.

Lemma xf_isnan_fin (a : Qc) : f_isnan (Fin a) = false.
Proof. unfold f_isnan. simpl. rewrite Qc_cmp_refl. reflexivity. Qed.

(** Python's division by a number [> 0] does not raise. *)
Lemma py_div_pos (a b : xfloat) :
  f_lt (f_of_Z 0) b = true -> py_div a b = inr (a /. b).
Proof. intro Hb. unfold py_div. rewrite (xf_lt_eq_false _ _ Hb). reflexivity. Qed.

Lemma xf_lt_fin (a b : Qc) : f_lt (Fin a) (Fin b) = Qc_ltb a b.
Proof. reflexivity. Qed.

(** ** The guarded divisions of [_calculate_wacc] *)

Lemma after_tax_cost_of_debt_no_raise (s : StockInputs xfloat) e :
  after_tax_historical_cost_of_debt s <> inl e.
Proof.
  unfold after_tax_historical_cost_of_debt.
  destruct (f_lt (f_of_Z 0) (long_term_debt_balance _ s)) eqn:E; [|discriminate].
  rewrite (py_div_pos _ _ E). discriminate.
Qed.

Lemma cost_of_preferred_equity_no_raise (s : StockInputs xfloat) e :
  cost_of_preferred_equity s <> inl e.
Proof.
  unfold cost_of_preferred_equity.
  destruct (f_lt (f_of_Z 0) (preferred_stock _ s)) eqn:E; [|discriminate].
  rewrite (py_div_pos _ _ E). discriminate.
Qed.

Lemma after_tax_cost_of_debt_nonpos (s : StockInputs xfloat) d :
  long_term_debt_balance _ s = Fin d -> (d <= 0)%Qc ->
  after_tax_historical_cost_of_debt s = inr (f_of_Z 0).
Proof.
  intros Hd Hle. unfold after_tax_historical_cost_of_debt.
  rewrite Hd, xf_of_Z_0, xf_lt_fin, (proj2 (Qc_ltb_false _ _) Hle). reflexivity.
Qed.

Lemma cost_of_preferred_equity_nonpos (s : StockInputs xfloat) p :
  preferred_stock _ s = Fin p -> (p <= 0)%Qc ->
  cost_of_preferred_equity s = inr (f_of_Z 0).
Proof.
  intros Hp Hle. unfold cost_of_preferred_equity.
  rewrite Hp, xf_of_Z_0, xf_lt_fin, (proj2 (Qc_ltb_false _ _) Hle). reflexivity.
Qed.

(** The constructor succeeds on a positive total capital, with the WACC of
    [_calculate_wacc]'s final expression. *)
Lemma Stock_init_wacc (row : Row xfloat) :
  f_lt (f_of_Z 0) (total_capital (stock_attributes row)) = true ->
  exists s atc cpe,
    Stock_init row = inr s /\ attrs _ s = stock_attributes row /\
    after_tax_historical_cost_of_debt (attrs _ s) = inr atc /\
    cost_of_preferred_equity (attrs _ s) = inr cpe /\
    weighted_average_cost_of_capital _ s =
      (atc *. long_term_debt_balance _ (attrs _ s)
       +. cpe *. preferred_stock _ (attrs _ s)
       +. cost_of_equity (attrs _ s) *. common_shares_outstanding _ (attrs _ s)
          *. price _ (attrs _ s))
      /. total_capital (attrs _ s).
Proof.
  intros Htot.
  set (a := stock_attributes row) in * .
  destruct (after_tax_historical_cost_of_debt a) as [e|atc] eqn:Hatc;
    [exfalso; exact (after_tax_cost_of_debt_no_raise a e Hatc)|].
  destruct (cost_of_preferred_equity a) as [e|cpe] eqn:Hcpe;
    [exfalso; exact (cost_of_preferred_equity_no_raise a e Hcpe)|].
  destruct (_derive_distributions a) as [[cf_sd rotc_sd] pb_sd] eqn:Hd.
  exists (mkStock a cf_sd rotc_sd pb_sd
            ((atc *. long_term_debt_balance _ a +. cpe *. preferred_stock _ a
              +. cost_of_equity a *. common_shares_outstanding _ a *. price _ a)
             /. total_capital a)), atc, cpe.
  repeat split; try assumption.
  unfold Stock_init. fold a. rewrite Hd. unfold _calculate_wacc.
  rewrite Hatc, Hcpe. simpl sbind. rewrite (py_div_pos _ _ Htot). reflexivity.
Qed.

(** [np.clip(x, 0, 1)] in exact arithmetic. *)
Lemma np_clip_01 (x : xfloat) :
  (f_lt x (f_of_Z 0) = true -> np_clip x (f_of_Z 0) (f_of_Z 1) = f_of_Z 0) /\
  (f_lt (f_of_Z 1) x = true -> np_clip x (f_of_Z 0) (f_of_Z 1) = f_of_Z 1) /\
  (f_lt x (f_of_Z 0) = false -> f_lt (f_of_Z 1) x = false ->
   np_clip x (f_of_Z 0) (f_of_Z 1) = x).
Proof.
  rewrite xf_of_Z_0, xf_of_Z_1.
  destruct x as [q|[]|]; unfold np_clip, np_maximum, np_minimum;
    [| vm_compute; repeat split; congruence ..].
  rewrite !xf_lt_fin, xf_isnan_fin.
  destruct (Qc_ltb 0 q) eqn:E2; rewrite xf_isnan_fin, ?xf_lt_fin.
  - apply Qc_ltb_true in E2. split.
    { intro H1. apply Qc_ltb_true in H1. exfalso.
      exact (Qclt_not_le _ _ H1 (Qclt_le_weak _ _ E2)). }
    split.
    + intro H1. apply Qc_ltb_true in H1.
      rewrite (proj2 (Qc_ltb_false q 1) (Qclt_le_weak _ _ H1)). reflexivity.
    + intros _ H1. apply Qc_ltb_false in H1.
      destruct (Qc_ltb q 1) eqn:E3; [reflexivity|].
      apply Qc_ltb_false in E3. f_equal. apply Qcle_antisym; assumption.
  - apply Qc_ltb_false in E2.
    assert (H01 : (0 < 1)%Qc) by (apply Qc_ltb_true; reflexivity).
    rewrite (proj2 (Qc_ltb_true 0 1) H01). split; [reflexivity|]. split.
    + intro H1. apply Qc_ltb_true in H1. exfalso.
      apply (Qclt_not_eq q q); [|reflexivity].
      exact (Qclt_trans _ _ _ (Qcle_lt_trans _ _ _ E2 H01) H1).
    + intros H1 _. apply Qc_ltb_false in H1. f_equal. apply Qcle_antisym; assumption.
Qed.

(** A standard-normal draw [z] at position [g] gives [loc + scale * z]. *)
Lemma normal_ok {F} `{PyFloat F} (gauss : nat -> F) loc scale g :
  scale_ok scale = true -> normal gauss loc scale g = (S g, inr (loc +. scale *. gauss g)).
Proof. intro Hs. unfold normal. rewrite Hs. reflexivity. Qed.

(** Pairing labels with a constant column of means. *)
Lemma combine_const_seq {A B} (f : nat -> B) (c : B) (l : list A) (start : nat) :
  (forall j, f j = c) ->
  combine l (map f (seq start (List.length l))) = map (fun k => (k, c)) l.
Proof.
  intro Hf. revert start. induction l as [|k l IH]; intro start; [reflexivity|].
  simpl. rewrite Hf. f_equal. apply IH.
Qed.

(** ** Dicts, loops and sums *)

(** [d[k]] for a key not in [d]. *)
Lemma dict_get_none {A} (d : dict A) k : ~ In k (keys d) -> dict_get d k = None.
Proof.
  induction d as [|[k' v] d IH]; simpl; intro Hn; [reflexivity|].
  destruct (String.eqb_spec k k') as [->|Hne]; [exfalso; apply Hn; left; reflexivity|].
  apply IH. intro Hi. apply Hn. right. exact Hi.
Qed.

Lemma dict_set_absent {A} (d : dict A) k v : ~ In k (keys d) -> dict_set d k v = d ++ [(k, v)].
Proof.
  induction d as [|[k' v'] d IH]; simpl; intro Hn; [reflexivity|].
  destruct (String.eqb_spec k k') as [->|Hne]; [exfalso; apply Hn; left; reflexivity|].
  rewrite IH; [reflexivity|]. intro Hi. apply Hn. right. exact Hi.
Qed.

Lemma keys_app {A} (d d' : dict A) : keys (d ++ d') = keys d ++ keys d'.
Proof. apply map_app. Qed.

Lemma map_snd_combine {A B} (l : list A) (l' : list B) :
  List.length l = List.length l' -> map snd (combine l l') = l'.
Proof.
  revert l'. induction l as [|a l IH]; intros [|b l'] E; simpl in *; try discriminate; auto.
  f_equal. apply IH. lia.
Qed.

Lemma keys_combine {A} (l : list string) (l' : list A) :
  List.length l = List.length l' -> keys (combine l l') = l.
Proof.
  revert l'. induction l as [|a l IH]; intros [|b l'] E; simpl in *; try discriminate; auto.
  f_equal. apply IH. lia.
Qed.

(** Looking up every label of a dict built by pairing distinct labels with
    values gives back the values. *)
Lemma map_get_combine {A} (dflt : A) (ks : list string) (vs : list A) :
  NoDup ks -> List.length ks = List.length vs ->
  map (fun k => match dict_get (combine ks vs) k with Some v => v | None => dflt end) ks = vs.
Proof.
  revert vs. induction ks as [|k ks IH]; intros [|v vs] Hnd E; simpl in *; try discriminate;
    [reflexivity|].
  inversion Hnd as [|? ? Hk Hnd']; subst.
  rewrite String.eqb_refl. f_equal.
  etransitivity; [|exact (IH vs Hnd' ltac:(lia))]. apply map_ext_in. intros k' Hk'.
  destruct (String.eqb_spec k' k) as [->|]; [contradiction|reflexivity].
Qed.

Section Loops.
Context {F : Type} `{PyFloat F}.
Variable gauss : nat -> F.

Lemma roll_ratios_spec (items : dict (Stock F)) (acc res : dict F) (g g' : nat) :
  NoDup (keys items) -> (forall k, In k (keys items) -> ~ In k (keys acc)) ->
  roll_ratios gauss items acc g = (g', inr res) ->
  exists rs, List.length rs = List.length items /\ res = acc ++ combine (keys items) rs.
Proof.
  revert acc g. induction items as [|[k s] items IH]; intros acc g Hnd Hdis E.
  - simpl in E. injection E as _ <-. exists []. rewrite app_nil_r. split; reflexivity.
  - simpl in E. unfold mbind at 1 in E.
    destruct (roll_once gauss s g) as [g1 [e|[[gr v] r]]]; [discriminate|].
    inversion Hnd as [|? ? Hk Hnd']; subst.
    rewrite dict_set_absent in E by (apply Hdis; left; reflexivity).
    assert (Hdis' : forall k', In k' (keys items) -> ~ In k' (keys (acc ++ [(k, r)]))).
    { intros k' Hk' Hin. rewrite keys_app in Hin.
      apply in_app_or in Hin as [Hin|[Heq|[]]];
        [exact (Hdis k' (or_intror Hk') Hin) | simpl in Heq; subst; contradiction]. }
    destruct (IH _ _ Hnd' Hdis' E)
      as (rs & Hlen & ->).
    exists (r :: rs). split; [simpl; lia|]. rewrite <- app_assoc. reflexivity.
Qed.

Lemma normalize_spec (ks : list string) (ratios acc : dict F) (sum : F) :
  NoDup ks -> (forall k, In k ks -> ~ In k (keys acc)) ->
  (forall k, In k ks -> dict_get ratios k <> None) ->
  normalize ks ratios sum acc =
    inr (acc ++ map (fun k => (k, match dict_get ratios k with Some r => r | None => f_nan end /. sum)) ks).
Proof.
  revert acc. induction ks as [|k ks IH]; intros acc Hnd Hdis Hget.
  - simpl. rewrite app_nil_r. reflexivity.
  - simpl. inversion Hnd as [|? ? Hk Hnd']; subst.
    destruct (dict_get ratios k) as [r|] eqn:Er; [|exfalso; exact (Hget k (or_introl eq_refl) Er)].
    rewrite dict_set_absent by (apply Hdis; left; reflexivity).
    rewrite IH; [rewrite <- app_assoc; reflexivity | exact Hnd' | |].
    + intros k' Hk' Hin. rewrite keys_app in Hin.
      apply in_app_or in Hin as [Hin|[Heq|[]]];
        [exact (Hdis k' (or_intror Hk') Hin) | simpl in Heq; subst; contradiction].
    + intros k' Hk'. apply Hget. right. exact Hk'.
Qed.


Lemma dict_get_combine_some {A} (ks : list string) (vs : list A) k :
  List.length ks = List.length vs -> In k ks -> dict_get (combine ks vs) k <> None.
Proof.
  revert vs. induction ks as [|k' ks IH]; intros [|v vs] E Hin; simpl in *;
    try discriminate; try contradiction.
  destruct (String.eqb_spec k k') as [->|Hne]; [discriminate|].
  destruct Hin as [->|Hin]; [contradiction|]. apply IH; [lia|exact Hin].
Qed.

Lemma map_pair_combine {A B} (f : A -> B) (l : list A) :
  map (fun k => (k, f k)) l = combine l (map f l).
Proof. induction l as [|a l IH]; simpl; [reflexivity|]. rewrite IH. reflexivity. Qed.

Lemma length_keys {A} (d : dict A) : List.length (keys d) = List.length d.
Proof. apply length_map. Qed.

(** A trial whose ratios were drawn normalizes without raising: each
    weight is the stock's ratio divided by the [np.sum] of the ratios. *)
Lemma allocate_once_of_ratios (d : dict (Stock F)) (rs : list F) (g g' : nat) :
  NoDup (keys d) -> List.length rs = List.length d ->
  roll_ratios gauss d [] g = (g', inr (combine (keys d) rs)) ->
  _allocate_once gauss d g = (g', inr (combine (keys d) (map (fun r => r /. np_sum rs) rs))).
Proof.
  intros Hnd Hl Er. unfold _allocate_once, mbind. rewrite Er. unfold mlift.
  rewrite <- length_keys in Hl.
  rewrite map_snd_combine by lia.
  rewrite normalize_spec; [| exact Hnd | intros k _ [] |
                           intros k Hk; apply dict_get_combine_some; [lia | exact Hk]].
  simpl. rewrite map_pair_combine. do 3 f_equal.
  etransitivity;
    [|apply (f_equal (map (fun r => r /. np_sum rs)));
      exact (map_get_combine f_nan (keys d) rs Hnd ltac:(lia))].
  rewrite map_map. reflexivity.
Qed.

Lemma allocate_once_spec (d : dict (Stock F)) (g g' : nat) (allocs : dict F) :
  NoDup (keys d) -> _allocate_once gauss d g = (g', inr allocs) ->
  exists rs, List.length rs = List.length d /\
    roll_ratios gauss d [] g = (g', inr (combine (keys d) rs)) /\
    allocs = combine (keys d) (map (fun r => r /. np_sum rs) rs).
Proof.
  intros Hnd E.
  destruct (roll_ratios gauss d [] g) as [g1 [e|ratios]] eqn:Er.
  - unfold _allocate_once, mbind in E. rewrite Er in E. discriminate.
  - destruct (roll_ratios_spec d [] ratios g g1 Hnd (fun _ _ H => H) Er) as (rs & Hl & Hr).
    simpl in Hr. subst ratios.
    rewrite (allocate_once_of_ratios d rs g g1 Hnd Hl Er) in E. injection E as <- <-.
    exists rs. repeat split; assumption.
Qed.

Lemma align_combine (cols : list string) (ws : list F) :
  NoDup cols -> List.length cols = List.length ws -> align cols (combine cols ws) = ws.
Proof. intros. unfold align. apply map_get_combine; assumption. Qed.

Lemma length_set_nth {A} (i : nat) (x : A) (l : list A) :
  List.length (set_nth i x l) = List.length l.
Proof.
  revert i. induction l as [|y l IH]; intros [|i]; simpl; try reflexivity. rewrite IH. reflexivity.
Qed.

Lemma nth_error_set_nth {A} (i : nat) (x : A) (l : list A) (j : nat) :
  nth_error (set_nth i x l) j =
    if Nat.eqb i j then match nth_error l j with Some _ => Some x | None => None end
    else nth_error l j.
Proof.
  revert i j. induction l as [|y l IH]; intros [|i] [|j]; simpl;
    try reflexivity; try (destruct (Nat.eqb _ _); reflexivity).
  apply IH.
Qed.

Lemma fill_trials_spec (stocks : dict (Stock F)) (idx : list nat) (fr fr' : Frame F)
    (g g' : nat) (e : option exn) :
  fill_trials gauss stocks idx fr g = (fr', g', e) ->
  frame_columns _ fr' = frame_columns _ fr /\
  List.length (frame_data _ fr') = List.length (frame_data _ fr) /\
  (forall i row, nth_error (frame_data _ fr') i = Some row ->
     nth_error (frame_data _ fr) i = Some row \/
     exists gi gi' allocs, _allocate_once gauss stocks gi = (gi', inr allocs) /\
       row = align (frame_columns _ fr) allocs) /\
  (e = None -> forall i, In i idx -> (i < List.length (frame_data _ fr))%nat ->
     exists row gi gi' allocs, nth_error (frame_data _ fr') i = Some row /\
       _allocate_once gauss stocks gi = (gi', inr allocs) /\
       row = align (frame_columns _ fr) allocs).
Proof.
  revert fr g. induction idx as [|i0 idx IH]; intros fr g E; simpl in E.
  - injection E as <- <- <-. repeat split; [| intros _ _ []].
    intros i row Hr. left. exact Hr.
  - destruct (_allocate_once gauss stocks g) as [g1 [e1|allocs]] eqn:Ea.
    + injection E as <- <- <-. repeat split; [|discriminate].
      intros i row Hr. left. exact Hr.
    + destruct (IH _ _ E) as (Hc & Hl & Hrows & Hall). simpl in Hc, Hl, Hrows, Hall.
      rewrite length_set_nth in Hl, Hall.
      assert (Hrow : forall i row, nth_error (frame_data _ fr') i = Some row ->
                nth_error (frame_data _ fr) i = Some row \/
                exists gi gi' allocs, _allocate_once gauss stocks gi = (gi', inr allocs) /\
                  row = align (frame_columns _ fr) allocs).
      { intros i row Hr. destruct (Hrows i row Hr) as [H1|H1]; [|right; exact H1].
        rewrite nth_error_set_nth in H1. destruct (Nat.eqb_spec i0 i) as [<-|].
        - destruct (nth_error (frame_data _ fr) i0); [|discriminate].
          injection H1 as <-. right. exists g, g1, allocs. split; [exact Ea|reflexivity].
        - left. exact H1. }
      repeat split; [exact Hc | exact Hl | exact Hrow |].
      intros He i [<-|Hi] Hlt; [|exact (Hall He i Hi Hlt)].
      destruct (nth_error (frame_data _ fr') i0) as [row|] eqn:Er;
        [|apply nth_error_None in Er; lia].
      exists row. destruct (Hrows i0 row Er) as [H1|(gi & gi' & al & H1 & H2)].
      * rewrite nth_error_set_nth, Nat.eqb_refl in H1.
        destruct (nth_error (frame_data _ fr) i0); [|discriminate].
        injection H1 as <-. exists g, g1, allocs. repeat split; [exact Ea].
      * exists gi, gi', al. repeat split; assumption.
Qed.


(** After [allocate] with a count [>= 0], the trial frame has one column
    per stock and one row per iteration, and each row is either a trial
    written by the loop or, after an exception, a row of zeros never
    reached. *)
Lemma allocate_trials (n : Z) (p p' : Portfolio F) (g g' : nat) (e : option exn) :
  (0 <= n)%Z -> allocate gauss n p g = (p', g', e) ->
  stocks _ p' = stocks _ p /\
  exists fr, allocation_trials _ p' = Some fr /\
    frame_columns _ fr = keys (stocks _ p) /\
    List.length (frame_data _ fr) = Z.to_nat n /\
    forall i row, nth_error (frame_data _ fr) i = Some row ->
      (e <> None /\ row = repeat (f_of_Z 0) (List.length (stocks _ p))) \/
      exists gi gi' allocs, _allocate_once gauss (stocks _ p) gi = (gi', inr allocs) /\
        row = align (keys (stocks _ p)) allocs.
Proof.
  intros Hn E. unfold allocate in E.
  replace (n <? 0)%Z with false in E by (symmetry; apply Z.ltb_ge; exact Hn).
  destruct (fill_trials gauss (stocks _ p) (seq 0 (Z.to_nat n))
              (mkFrame (keys (stocks _ p))
                 (repeat (repeat (f_of_Z 0) (List.length (keys (stocks _ p)))) (Z.to_nat n))) g)
    as [[fr g1] e1] eqn:Ef.
  destruct (fill_trials_spec _ _ _ _ _ _ _ Ef) as (Hc & Hl & Hrows & Hall).
  simpl in Hc, Hl, Hrows, Hall. rewrite repeat_length in Hl, Hall.
  rewrite length_keys in Hrows.
  assert (Hfr : exists p0, p' = mkPortfolio (stocks _ p) p0 (Some fr) /\ e = e1 /\
                  (e1 = None -> p0 = Some (frame_mean fr))).
  { destruct e1; injection E as <- <- <-; eexists; repeat split; try reflexivity.
    discriminate. }
  destruct Hfr as (p0 & -> & -> & _). split; [reflexivity|].
  exists fr. repeat split; [exact Hc | exact Hl |].
  intros i row Hr. destruct e1 as [e1|].
  - destruct (Hrows i row Hr) as [H1|H1]; [left|right; exact H1].
    split; [discriminate|]. apply nth_error_In, repeat_spec in H1. exact H1.
  - right.
    assert (Hi : (i < Z.to_nat n)%nat) by (rewrite <- Hl; apply nth_error_Some; congruence).
    destruct (Hall eq_refl i ltac:(apply in_seq; lia) Hi)
      as (row' & gi & gi' & al & H1 & H2 & H3).
    rewrite Hr in H1. injection H1 as <-. exists gi, gi', al. split; assumption.
Qed.

End Loops.

Lemma fold_add_fin (qs : list Qc) (a : Qc) :
  fold_left f_add (map Fin qs) (Fin a) = Fin (a + fold_right Qcplus 0 qs).
Proof.
  revert a. induction qs as [|q qs IH]; intro a; simpl.
  - f_equal. ring.
  - change (f_add (Fin a) (Fin q)) with (Fin (a + q)). rewrite IH. f_equal. ring.
Qed.

Lemma np_sum_fin (qs : list Qc) : np_sum (map Fin qs) = Fin (fold_right Qcplus 0 qs).
Proof. unfold np_sum. rewrite xf_of_Z_0, fold_add_fin. f_equal. ring. Qed.

(** Finite ratios with a nonzero exact sum: the weights are finite and sum
    to exactly 1. *)
Lemma weights_sum_one (qs : list Qc) :
  fold_right Qcplus 0 qs <> 0 ->
  map (fun r => r /. np_sum (map Fin qs)) (map Fin qs) =
    map (fun q => Fin (q / fold_right Qcplus 0 qs)) qs /\
  np_sum (map (fun q => Fin (q / fold_right Qcplus 0 qs)) qs) = Fin 1.
Proof.
  intro HS. set (S := fold_right Qcplus 0 qs) in * . rewrite np_sum_fin. fold S. split.
  - rewrite map_map. apply map_ext. intro q. simpl.
    rewrite (proj2 (Qc_eqb_false S 0) HS). reflexivity.
  - rewrite <- map_map, np_sum_fin. f_equal.
    assert (E : forall l, fold_right Qcplus 0 (map (fun q => q / S) l) = fold_right Qcplus 0 l / S).
    { induction l as [|q l IH]; simpl; [field; exact HS|]. rewrite IH. field. exact HS. }
    rewrite E. fold S. field. exact HS.
Qed.

(** Finite ratios summing to exactly 0: each weight is [r / 0], which numpy
    makes +inf, -inf or nan by the sign of [r]. *)
Lemma weights_zero_sum (qs : list Qc) :
  fold_right Qcplus 0 qs = 0 ->
  map (fun r => r /. np_sum (map Fin qs)) (map Fin qs) =
    map (fun q => if Qc_eqb q 0 then NaN else Inf (Qc_ltb q 0)) qs.
Proof.
  intro HS. rewrite np_sum_fin, HS, map_map. apply map_ext. intro q. reflexivity.
Qed.

Lemma xf_add_0_r (x : xfloat) : x +. Fin 0 = x.
Proof.
  destruct x as [a|s|]; try reflexivity.
  change (Fin (a + 0) = Fin a). f_equal. ring.
Qed.

Lemma fold_add_skip_nan (xs : list xfloat) (acc : xfloat) :
  fold_left f_add (map (fun x => if f_isnan x then f_of_Z 0 else x) xs) acc =
  fold_left f_add (map (fun x => if f_isnan x then f_of_Z 0 else x)
                     (filter (fun x => negb (f_isnan x)) xs)) acc.
Proof.
  revert acc. induction xs as [|x xs IH]; intro acc; [reflexivity|].
  cbn [map filter fold_left]. destruct (f_isnan x) eqn:Ex; cbn [negb map fold_left].
  - rewrite xf_of_Z_0, xf_add_0_r. apply IH.
  - rewrite Ex. apply IH.
Qed.

Lemma filter_idem {A} (f : A -> bool) (l : list A) : filter f (filter f l) = filter f l.
Proof.
  induction l as [|a l IH]; simpl; [reflexivity|].
  destruct (f a) eqn:Ea; simpl; rewrite ?Ea, IH; reflexivity.
Qed.

(** pandas' mean skips the nan entries of a column. *)
Lemma nanmean_skips_nan (xs : list xfloat) :
  nanmean xs = nanmean (filter (fun x => negb (f_isnan x)) xs).
Proof.
  unfold nanmean. rewrite filter_idem. unfold np_sum. rewrite fold_add_skip_nan. reflexivity.
Qed.

(** * The claims *)

(** ** Weighted average cost of capital *)

(** C3: for a stock whose total capital (debt balance + preferred stock
    balance + shares outstanding x price) is positive, the WACC computed at
    construction is (after-tax cost of debt x debt balance + cost of
    preferred equity x preferred stock balance + cost of equity x shares
    outstanding x price) / total capital, where the cost of equity is
    risk-free yield + beta x equity risk premium. *)
Theorem wacc_formula (row : Row xfloat) :
  f_lt (f_of_Z 0) (total_capital (stock_attributes row)) = true ->
  exists s atc cpe,
    Stock_init row = inr s /\ attrs _ s = stock_attributes row /\
    after_tax_historical_cost_of_debt (attrs _ s) = inr atc /\
    cost_of_preferred_equity (attrs _ s) = inr cpe /\
    weighted_average_cost_of_capital _ s =
      (atc *. long_term_debt_balance _ (attrs _ s)
       +. cpe *. preferred_stock _ (attrs _ s)
       +. (us_treasury_note_risk_free_yield_10y _ (attrs _ s)
           +. beta _ (attrs _ s) *. us_equities_exp_real_return_10y _ (attrs _ s))
          *. common_shares_outstanding _ (attrs _ s) *. price _ (attrs _ s))
      /. (long_term_debt_balance _ (attrs _ s) +. preferred_stock _ (attrs _ s)
          +. common_shares_outstanding _ (attrs _ s) *. price _ (attrs _ s)).
Proof. exact (Stock_init_wacc row). Qed.

Lemma wacc_formula_witness :
  f_lt (f_of_Z 0) (total_capital (stock_attributes row_up)) = true /\
  exists s atc cpe,
    Stock_init row_up = inr s /\ attrs _ s = stock_attributes row_up /\
    after_tax_historical_cost_of_debt (attrs _ s) = inr atc /\
    cost_of_preferred_equity (attrs _ s) = inr cpe /\
    weighted_average_cost_of_capital _ s =
      (atc *. long_term_debt_balance _ (attrs _ s)
       +. cpe *. preferred_stock _ (attrs _ s)
       +. (us_treasury_note_risk_free_yield_10y _ (attrs _ s)
           +. beta _ (attrs _ s) *. us_equities_exp_real_return_10y _ (attrs _ s))
          *. common_shares_outstanding _ (attrs _ s) *. price _ (attrs _ s))
      /. (long_term_debt_balance _ (attrs _ s) +. preferred_stock _ (attrs _ s)
          +. common_shares_outstanding _ (attrs _ s) *. price _ (attrs _ s)).
Proof.
  assert (H : f_lt (f_of_Z 0) (total_capital (stock_attributes row_up)) = true)
    by (vm_compute; reflexivity).
  split; [exact H | exact (wacc_formula row_up H)].
Defined.

(** C8: the divisions of the cost of debt and of the cost of preferred
    equity are guarded.  With a debt balance <= 0 the after-tax cost of debt
    is 0, taken without dividing; with a preferred stock balance <= 0 the
    cost of preferred equity is 0, likewise; and neither term ever raises
    [ZeroDivisionError]. *)
Theorem wacc_guarded_divisions :
  (forall (s : StockInputs xfloat) d,
     long_term_debt_balance _ s = Fin d -> (d <= 0)%Qc ->
     after_tax_historical_cost_of_debt s = inr (f_of_Z 0)) /\
  (forall (s : StockInputs xfloat) p,
     preferred_stock _ s = Fin p -> (p <= 0)%Qc ->
     cost_of_preferred_equity s = inr (f_of_Z 0)) /\
  (forall (s : StockInputs xfloat) e, after_tax_historical_cost_of_debt s <> inl e) /\
  (forall (s : StockInputs xfloat) e, cost_of_preferred_equity s <> inl e).
Proof.
  repeat split.
  - exact after_tax_cost_of_debt_nonpos.
  - exact cost_of_preferred_equity_nonpos.
  - exact after_tax_cost_of_debt_no_raise.
  - exact cost_of_preferred_equity_no_raise.
Qed.

(** C7 (counterexample): in binary64, a stock with no debt and no preferred
    stock (risk-free yield 1%, beta 0.5, expected real return 5%, 3M
    shares at 10) gets a WACC of 0.03500000000000001, while its cost of
    equity is 0.035. *)
Lemma wacc_equity_only_f64_differs :
  exists s, Stock_init row_equity_only = inr s /\
    long_term_debt_balance _ (attrs _ s) = 0%float /\
    preferred_stock _ (attrs _ s) = 0%float /\
    cost_of_equity (attrs _ s) = 0.035%float /\
    weighted_average_cost_of_capital _ s = 0.03500000000000001%float /\
    f_eq (weighted_average_cost_of_capital _ s) (cost_of_equity (attrs _ s)) = false.
Proof.
  eexists. split; [vm_compute; reflexivity|].
  vm_compute. repeat split; reflexivity.
Qed.

Lemma Qc_mult_pos_neq0 (a b : Qc) : (0 < a)%Qc -> (0 < b)%Qc -> (a * b <> 0)%Qc.
Proof.
  intros Ha Hb E. destruct (Qcmult_integral _ _ E) as [E'|E']; subst.
  - exact (Qclt_not_eq _ _ Ha eq_refl).
  - exact (Qclt_not_eq _ _ Hb eq_refl).
Qed.

Lemma Qc_pos_neq0 (a : Qc) : (0 < a)%Qc -> a <> 0%Qc.
Proof. intros Ha E. subst. exact (Qclt_not_eq _ _ Ha eq_refl). Qed.

Lemma Qc_not_neg_of_pos (a : Qc) : (0 < a)%Qc -> Qc_ltb a 0 = false.
Proof. intro Ha. apply Qc_ltb_false. apply Qclt_le_weak. exact Ha. Qed.

Lemma Qc_not_zero_of_pos (a : Qc) : (0 < a)%Qc -> Qc_eqb a 0 = false.
Proof. intro Ha. apply Qc_eqb_false. intro E. subst. exact (Qclt_not_eq _ _ Ha eq_refl). Qed.

Lemma Qc_mult_pos (a b : Qc) : (0 < a)%Qc -> (0 < b)%Qc -> (0 < a * b)%Qc.
Proof.
  intros Ha Hb. rewrite <- (Qcmult_0_l b). apply Qcmult_lt_compat_r; assumption.
Qed.

(** An equity-only stock: exact WACC is the cost of equity. *)
Lemma wacc_equity_only_exact_aux (coe : xfloat) (sh p : Qc) :
  (0 < sh)%Qc -> (0 < p)%Qc ->
  (f_of_Z 0 *. Fin 0 +. f_of_Z 0 *. Fin 0 +. coe *. Fin sh *. Fin p)
    /. (Fin 0 +. Fin 0 +. Fin sh *. Fin p) = coe.
Proof.
  intros Hsh Hp.
  assert (Hsp : (0 < 0 + 0 + sh * p)%Qc).
  { replace (0 + 0 + sh * p)%Qc with (sh * p)%Qc by ring. apply Qc_mult_pos; assumption. }
  destruct coe as [c|b|]; simpl.
  - rewrite (Qc_not_zero_of_pos _ Hsp). f_equal. field.
    split; apply Qc_pos_neq0; assumption.
  - rewrite ?(Qc_not_zero_of_pos _ Hsh), ?(Qc_not_neg_of_pos _ Hsh),
      ?(Qc_not_zero_of_pos _ Hp), ?(Qc_not_neg_of_pos _ Hp),
      ?(Qc_not_neg_of_pos _ Hsp).
    destruct b; cbv beta iota delta [xf_div xf_mul xorb];
      rewrite ?(Qc_not_zero_of_pos _ Hp), ?(Qc_not_neg_of_pos _ Hp), ?(Qc_not_neg_of_pos _ Hsp);
      reflexivity.
  - reflexivity.
Qed.

(** Closes [Fin a = Fin b] between concrete rationals. *)
Ltac fin_eq := vm_compute; f_equal; apply Qc_is_canon; vm_compute; reflexivity.

(** Closes an equation between concrete values holding rationals, after
    [vm_compute]: structure by congruence, rationals by [Qc_is_canon]. *)
Ltac fin_congr :=
  lazymatch goal with
  | |- Fin _ = Fin _ => f_equal; apply Qc_is_canon; vm_compute; reflexivity
  | |- _ => first [reflexivity | f_equal; fin_congr]
  end.

(** C7 (amended): in exact arithmetic, a stock with no debt, no preferred
    stock and positive shares outstanding and price has a WACC equal to its
    cost of equity, risk-free yield + beta x equity risk premium. *)
Theorem wacc_equity_only_exact (row : Row xfloat) (sh p : Qc) :
  long_term_debt_balance _ (stock_attributes row) = Fin 0 ->
  preferred_stock _ (stock_attributes row) = Fin 0 ->
  common_shares_outstanding _ (stock_attributes row) = Fin sh -> (0 < sh)%Qc ->
  price _ (stock_attributes row) = Fin p -> (0 < p)%Qc ->
  exists s, Stock_init row = inr s /\ attrs _ s = stock_attributes row /\
    weighted_average_cost_of_capital _ s =
      us_treasury_note_risk_free_yield_10y _ (attrs _ s)
      +. beta _ (attrs _ s) *. us_equities_exp_real_return_10y _ (attrs _ s).
Proof.
  intros Hd Hpf Hs Hsh Hp Hpp.
  assert (Htot : f_lt (f_of_Z 0) (total_capital (stock_attributes row)) = true).
  { unfold total_capital. rewrite Hd, Hpf, Hs, Hp.
    change (Qc_ltb 0 (0 + 0 + sh * p) = true). apply Qc_ltb_true.
    replace (0 + 0 + sh * p)%Qc with (sh * p)%Qc by ring. apply Qc_mult_pos; assumption. }
  destruct (Stock_init_wacc row Htot) as (s & atc & cpe & Hinit & Ha & Hatc & Hcpe & Hw).
  rewrite Ha in Hatc, Hcpe, Hw.
  rewrite (after_tax_cost_of_debt_nonpos _ 0 Hd (Qcle_refl 0)) in Hatc.
  rewrite (cost_of_preferred_equity_nonpos _ 0 Hpf (Qcle_refl 0)) in Hcpe.
  injection Hatc as <-. injection Hcpe as <-.
  exists s. split; [exact Hinit|]. split; [exact Ha|].
  rewrite Hw, Ha. unfold total_capital. rewrite Hd, Hpf, Hs, Hp.
  apply wacc_equity_only_exact_aux; assumption.
Qed.

Lemma wacc_equity_only_exact_witness :
  exists s, Stock_init row_up = inr s /\ attrs _ s = stock_attributes row_up /\
    weighted_average_cost_of_capital _ s =
      us_treasury_note_risk_free_yield_10y _ (attrs _ s)
      +. beta _ (attrs _ s) *. us_equities_exp_real_return_10y _ (attrs _ s).
Proof.
  apply (wacc_equity_only_exact row_up (Q2Qc (inject_Z 1000000)) (Q2Qc (inject_Z 50)));
    first [fin_eq | vm_compute; reflexivity].
Defined.

(** ** Standard deviations *)

(** The three standard deviations of a constructed stock are the dispersion
    factor of its earnings predictability times the metric's mean. *)
Lemma Stock_init_std_devs {F} `{PyFloat F} (row : Row F) (s : Stock F) :
  Stock_init row = inr s ->
  attrs _ s = stock_attributes row /\
  vl_cash_flow_per_share_std_dev _ s =
    dispersion_factor (vl_earnings_predictability _ (attrs _ s))
    *. vl_cash_flow_per_share _ (attrs _ s) /\
  vl_return_on_total_capital_std_dev _ s =
    dispersion_factor (vl_earnings_predictability _ (attrs _ s))
    *. vl_return_on_total_capital _ (attrs _ s) /\
  vl_retained_earnings_plowback_ratio_std_dev _ s =
    dispersion_factor (vl_earnings_predictability _ (attrs _ s))
    *. vl_retained_earnings_plowback_ratio _ (attrs _ s).
Proof.
  unfold Stock_init, _derive_distributions.
  destruct (_calculate_wacc (stock_attributes row)); simpl; [discriminate|].
  intro E. injection E as <-. simpl. repeat split.
Qed.

(** C5 (counterexample): in binary64, a stock with earnings predictability
    1.0 and cash flow per share 1.0 gets the factor 0.5 - 0.45 =
    0.04999999999999999, so its cash-flow standard deviation differs from
    0.05 x 1.0. *)
Lemma dispersion_factor_f64_not_005 :
  exists s, Stock_init row_predictable = inr s /\
    vl_earnings_predictability _ (attrs _ s) = 1%float /\
    vl_cash_flow_per_share _ (attrs _ s) = 1%float /\
    dispersion_factor (vl_earnings_predictability _ (attrs _ s)) = 0.04999999999999999%float /\
    f_eq (vl_cash_flow_per_share_std_dev _ s) (0.05 * 1)%float = false.
Proof.
  eexists. split; [vm_compute; reflexivity|].
  vm_compute. repeat split; reflexivity.
Qed.

(** C5 (amended): each standard deviation is (0.50 - 0.45 x earnings
    predictability) x the metric's mean, in any arithmetic.  In exact
    arithmetic the factor is exactly 0.05 at predictability 1 and 0.50 at
    predictability 0; in binary64 it is 0.5 at 0.0 but
    0.04999999999999999 (not the double 0.05) at 1.0. *)
Theorem std_devs_dispersion :
  (forall (F : Type) (HF : PyFloat F) (row : Row F) (s : Stock F),
     Stock_init row = inr s ->
     attrs _ s = stock_attributes row /\
     vl_cash_flow_per_share_std_dev _ s =
       (lit_050 -. lit_045 *. vl_earnings_predictability _ (attrs _ s))
       *. vl_cash_flow_per_share _ (attrs _ s) /\
     vl_return_on_total_capital_std_dev _ s =
       (lit_050 -. lit_045 *. vl_earnings_predictability _ (attrs _ s))
       *. vl_return_on_total_capital _ (attrs _ s) /\
     vl_retained_earnings_plowback_ratio_std_dev _ s =
       (lit_050 -. lit_045 *. vl_earnings_predictability _ (attrs _ s))
       *. vl_retained_earnings_plowback_ratio _ (attrs _ s)) /\
  dispersion_factor (Fin 1) = Fin (Q2Qc (1 # 20)) /\
  dispersion_factor (Fin 0) = Fin (Q2Qc (1 # 2)) /\
  lit_050 = 0.50%float /\ lit_045 = 0.45%float /\
  dispersion_factor 1%float = 0.04999999999999999%float /\
  dispersion_factor 0%float = 0.50%float.
Proof.
  split; [exact (@Stock_init_std_devs)|].
  repeat split; first [fin_eq | vm_compute; reflexivity].
Qed.

(** ** Sampling *)

(** C6: in a sampling call that returns, the plowback used in the growth
    rate is the drawn plowback clamped into [0, 1]: 0 for a draw below 0,
    1 for a draw above 1, and the draw itself otherwise. *)
Theorem plowback_clamped (gauss : nat -> xfloat) (s : Stock xfloat) (g g' : nat)
    (gr v r : xfloat) :
  roll_once gauss s g = (g', inr (gr, v, r)) ->
  let rotc := vl_return_on_total_capital _ (attrs _ s)
              +. vl_return_on_total_capital_std_dev _ s *. gauss g in
  let drawn := vl_retained_earnings_plowback_ratio _ (attrs _ s)
               +. vl_retained_earnings_plowback_ratio_std_dev _ s *. gauss (S g) in
  exists used,
    gr = f_of_Z 100 *. (rotc -. weighted_average_cost_of_capital _ s) *. used /\
    (f_lt drawn (f_of_Z 0) = true -> used = f_of_Z 0) /\
    (f_lt (f_of_Z 1) drawn = true -> used = f_of_Z 1) /\
    (f_lt drawn (f_of_Z 0) = false -> f_lt (f_of_Z 1) drawn = false -> used = drawn).
Proof.
  intros E rotc drawn. unfold roll_once, mbind, normal, mlift, mret in E.
  destruct (scale_ok (vl_return_on_total_capital_std_dev _ s)); [|discriminate].
  destruct (scale_ok (vl_retained_earnings_plowback_ratio_std_dev _ s)); [|discriminate].
  destruct (scale_ok (vl_cash_flow_per_share_std_dev _ s)); [|discriminate].
  destruct (py_div _ _) in E; [discriminate|]. injection E as _ <- _ _.
  exists (np_clip drawn (f_of_Z 0) (f_of_Z 1)). split; [reflexivity|].
  exact (np_clip_01 drawn).
Qed.

Lemma plowback_clamped_witness :
  let rotc z := vl_return_on_total_capital _ (attrs _ stock_up)
                +. vl_return_on_total_capital_std_dev _ stock_up *. gauss_plow z 0%nat in
  let drawn z := vl_retained_earnings_plowback_ratio _ (attrs _ stock_up)
                 +. vl_retained_earnings_plowback_ratio_std_dev _ stock_up *. gauss_plow z 1%nat in
  f_lt (f_of_Z 1) (drawn 10%Z) = true /\
  (exists g' gr v r, roll_once (gauss_plow 10) stock_up 0%nat = (g', inr (gr, v, r)) /\
     gr = f_of_Z 100 *. (rotc 10%Z -. weighted_average_cost_of_capital _ stock_up) *. f_of_Z 1) /\
  f_lt (drawn (-40)%Z) (f_of_Z 0) = true /\
  (exists g' gr v r, roll_once (gauss_plow (-40)) stock_up 0%nat = (g', inr (gr, v, r)) /\
     gr = f_of_Z 100 *. (rotc (-40)%Z -. weighted_average_cost_of_capital _ stock_up) *. f_of_Z 0).
Proof.
  intros rotc drawn.
  assert (Hhi : f_lt (f_of_Z 1) (drawn 10%Z) = true) by (vm_compute; reflexivity).
  assert (Hlo : f_lt (drawn (-40)%Z) (f_of_Z 0) = true) by (vm_compute; reflexivity).
  split; [exact Hhi|]. split; [|split; [exact Hlo|]].
  - destruct (roll_once (gauss_plow 10) stock_up 0%nat) as [g' [e|[[gr v] r]]] eqn:E;
      [vm_compute in E; discriminate E|].
    exists g', gr, v, r. split; [reflexivity|].
    destruct (plowback_clamped (gauss_plow 10) stock_up 0%nat g' gr v r E)
      as (used & Hgr & _ & H1 & _).
    rewrite Hgr, (H1 Hhi). reflexivity.
  - destruct (roll_once (gauss_plow (-40)) stock_up 0%nat) as [g' [e|[[gr v] r]]] eqn:E;
      [vm_compute in E; discriminate E|].
    exists g', gr, v, r. split; [reflexivity|].
    destruct (plowback_clamped (gauss_plow (-40)) stock_up 0%nat g' gr v r E)
      as (used & Hgr & H0 & _ & _).
    rewrite Hgr, (H0 Hlo). reflexivity.
Defined.

(** C4 (counterexample): a stock with cash flow per share 0, sampled with
    every standard normal draw 0, draws a cash flow of 0, and
    [self.price/cash_flow] raises [ZeroDivisionError]. *)
Lemma roll_once_zero_cash_flow_raises :
  Stock_init row_no_cash = inr stock_no_cash /\
  vl_cash_flow_per_share _ (attrs _ stock_no_cash)
    +. vl_cash_flow_per_share_std_dev _ stock_no_cash *. gauss_zero 2%nat = xz 0 /\
  roll_once gauss_zero stock_no_cash 0%nat = (3%nat, inl ZeroDivisionError).
Proof. split; [|split]; first [fin_eq | vm_compute; reflexivity]. Qed.

(** C4 (amended): with the three draws [rotc], [plowback] and [cash_flow]
    at positions [g], [g+1], [g+2] and the plowback clamped into [0, 1],
    a sampling call gives growth_rate = 100 x (rotc - WACC) x plowback,
    valuation_multiple = price / cash_flow and value_ratio = growth_rate /
    valuation_multiple when the cash flow is not 0 (negative included), and
    raises [ZeroDivisionError] when it is 0. *)
Theorem roll_once_formula {F} `{PyFloat F} (gauss : nat -> F) (s : Stock F) (g : nat) :
  scale_ok (vl_return_on_total_capital_std_dev _ s) = true ->
  scale_ok (vl_retained_earnings_plowback_ratio_std_dev _ s) = true ->
  scale_ok (vl_cash_flow_per_share_std_dev _ s) = true ->
  let rotc := vl_return_on_total_capital _ (attrs _ s)
              +. vl_return_on_total_capital_std_dev _ s *. gauss g in
  let plowback := np_clip (vl_retained_earnings_plowback_ratio _ (attrs _ s)
                    +. vl_retained_earnings_plowback_ratio_std_dev _ s *. gauss (S g))
                    (f_of_Z 0) (f_of_Z 1) in
  let cash_flow := vl_cash_flow_per_share _ (attrs _ s)
                   +. vl_cash_flow_per_share_std_dev _ s *. gauss (S (S g)) in
  let growth_rate := f_of_Z 100 *. (rotc -. weighted_average_cost_of_capital _ s) *. plowback in
  roll_once gauss s g =
    (S (S (S g)),
     if f_eq cash_flow (f_of_Z 0) then inl ZeroDivisionError
     else inr (growth_rate, price _ (attrs _ s) /. cash_flow,
               growth_rate /. (price _ (attrs _ s) /. cash_flow))).
Proof.
  intros H1 H2 H3 rotc plowback cash_flow growth_rate.
  unfold roll_once, mbind, mlift, mret.
  rewrite (normal_ok gauss _ _ g H1), (normal_ok gauss _ _ (S g) H2),
    (normal_ok gauss _ _ (S (S g)) H3).
  unfold py_div. fold cash_flow. destruct (f_eq cash_flow (f_of_Z 0)); reflexivity.
Qed.

Lemma roll_once_formula_witness :
  scale_ok (vl_return_on_total_capital_std_dev _ stock_up) = true /\
  scale_ok (vl_retained_earnings_plowback_ratio_std_dev _ stock_up) = true /\
  scale_ok (vl_cash_flow_per_share_std_dev _ stock_up) = true /\
  let s := stock_up in let gauss := gauss_zero in let g := 0%nat in
  let rotc := vl_return_on_total_capital _ (attrs _ s)
              +. vl_return_on_total_capital_std_dev _ s *. gauss g in
  let plowback := np_clip (vl_retained_earnings_plowback_ratio _ (attrs _ s)
                    +. vl_retained_earnings_plowback_ratio_std_dev _ s *. gauss (S g))
                    (f_of_Z 0) (f_of_Z 1) in
  let cash_flow := vl_cash_flow_per_share _ (attrs _ s)
                   +. vl_cash_flow_per_share_std_dev _ s *. gauss (S (S g)) in
  let growth_rate := f_of_Z 100 *. (rotc -. weighted_average_cost_of_capital _ s) *. plowback in
  roll_once gauss s g =
    (S (S (S g)),
     if f_eq cash_flow (f_of_Z 0) then inl ZeroDivisionError
     else inr (growth_rate, price _ (attrs _ s) /. cash_flow,
               growth_rate /. (price _ (attrs _ s) /. cash_flow))).
Proof.
  assert (H1 : scale_ok (vl_return_on_total_capital_std_dev _ stock_up) = true)
    by (vm_compute; reflexivity).
  assert (H2 : scale_ok (vl_retained_earnings_plowback_ratio_std_dev _ stock_up) = true)
    by (vm_compute; reflexivity).
  assert (H3 : scale_ok (vl_cash_flow_per_share_std_dev _ stock_up) = true)
    by (vm_compute; reflexivity).
  split; [exact H1|]. split; [exact H2|]. split; [exact H3|].
  exact (roll_once_formula gauss_zero stock_up 0%nat H1 H2 H3).
Defined.

(** ** [allocate] *)

(** C10: [allocate(0)] raises nothing and draws nothing: the trial frame
    has one column per stock name and no row, and the mean allocation of
    every stock is nan (the mean of an empty column). *)
Theorem allocate_zero_iterations {F} `{PyFloat F} (gauss : nat -> F) (p : Portfolio F)
    (g : nat) :
  allocate gauss 0 p g =
    (mkPortfolio (stocks _ p) (Some (map (fun k => (k, f_nan)) (keys (stocks _ p))))
       (Some (mkFrame (keys (stocks _ p)) [])),
     g, None).
Proof.
  unfold allocate. simpl. unfold frame_mean. simpl.
  rewrite (combine_const_seq _ f_nan); reflexivity.
Qed.

(** ** Per-trial normalization *)

(** C1 (counterexample): in binary64, two stocks with value ratio 1e308
    each draw finite ratios, but their [np.sum] overflows to +inf, a
    nonzero sum; each weight is then 1e308 / inf = 0, and the weights of
    the trial sum to 0, not to 1. *)
Lemma trial_weights_f64_overflow :
  let d := match stocks_of_rows [row_tiny_price "A"; row_tiny_price "B"] with
           | inr d => d | inl _ => [] end in
  stocks_of_rows [row_tiny_price "A"; row_tiny_price "B"] = inr d /\
  roll_ratios gauss_zero64 d [] 0%nat = (6%nat, inr [("A"%string, 1e308%float); ("B"%string, 1e308%float)]) /\
  np_sum [1e308%float; 1e308%float] = infinity /\
  allocate gauss_zero64 1 (Portfolio_init d) 0%nat =
    (mkPortfolio d (Some [("A"%string, 0%float); ("B"%string, 0%float)])
       (Some (mkFrame ["A"%string; "B"%string] [[0%float; 0%float]])), 6%nat, None) /\
  np_sum [0%float; 0%float] = 0%float.
Proof. intro d. repeat split; vm_compute; reflexivity. Qed.

(** C1 (amended): in exact arithmetic, every row of the trial frame left by
    [allocate] is a trial written by the loop (or, after an exception, a
    row of zeros the loop never reached).  A written row holds, for each
    stock in column order, that stock's drawn value ratio divided by the
    sum of the ratios of the trial; when these ratios are finite with a
    nonzero sum, the weights are finite and sum to exactly 1. *)
Theorem trial_weights_normalized (gauss : nat -> xfloat) (n : Z) (p p' : Portfolio xfloat)
    (g g' : nat) (e : option exn) :
  NoDup (keys (stocks _ p)) -> (0 <= n)%Z -> allocate gauss n p g = (p', g', e) ->
  exists fr, allocation_trials _ p' = Some fr /\ frame_columns _ fr = keys (stocks _ p) /\
    List.length (frame_data _ fr) = Z.to_nat n /\
    forall i row, nth_error (frame_data _ fr) i = Some row ->
      (e <> None /\ row = repeat (f_of_Z 0) (List.length (stocks _ p))) \/
      exists gi gi' rs,
        roll_ratios gauss (stocks _ p) [] gi = (gi', inr (combine (keys (stocks _ p)) rs)) /\
        row = map (fun r => r /. np_sum rs) rs /\
        (forall qs, rs = map Fin qs -> fold_right Qcplus 0 qs <> 0 ->
           row = map (fun q => Fin (q / fold_right Qcplus 0 qs)) qs /\ np_sum row = Fin 1).
Proof.
  intros Hnd Hn E.
  destruct (allocate_trials gauss n p p' g g' e Hn E) as (_ & fr & Hfr & Hc & Hl & Hrows).
  exists fr. repeat split; try assumption.
  intros i row Hr. destruct (Hrows i row Hr) as [H1|(gi & gi' & allocs & Ha & ->)];
    [left; exact H1|right].
  destruct (allocate_once_spec gauss _ _ _ _ Hnd Ha) as (rs & Hlen & Hroll & ->).
  exists gi, gi', rs. split; [exact Hroll|].
  rewrite align_combine; [| exact Hnd | rewrite length_map, length_keys; lia].
  split; [reflexivity|].
  intros qs -> HS. destruct (weights_sum_one qs HS) as [Hw Hs].
  rewrite Hw. split; [reflexivity | exact Hs].
Qed.

Lemma trial_weights_normalized_witness :
  let d := match stocks_of_rows [row_up; row_half_price] with inr d => d | inl _ => [] end in
  let p := Portfolio_init d in
  let r := allocate gauss_zero 1 p 0%nat in
  NoDup (keys (stocks _ p)) /\ (0 <= 1)%Z /\
  allocate gauss_zero 1 p 0%nat = (fst (fst r), snd (fst r), snd r) /\
  roll_ratios gauss_zero (stocks _ p) [] 0%nat =
    (6%nat, inr (combine (keys (stocks _ p)) (map Fin [1; Q2Qc 2]))) /\
  fold_right Qcplus 0 [1; Q2Qc 2] <> 0 /\
  exists fr row, allocation_trials _ (fst (fst r)) = Some fr /\
    nth_error (frame_data _ fr) 0 = Some row /\
    row = map (fun q => Fin (q / fold_right Qcplus 0 [1; Q2Qc 2])) [1; Q2Qc 2] /\
    np_sum row = Fin 1.
Proof.
  intros d p r.
  assert (Hnd : NoDup (keys (stocks _ p))).
  { vm_compute. constructor; [intros [H|[]]; discriminate H | constructor; [intros []|constructor]]. }
  assert (Hn : (0 <= 1)%Z) by lia.
  assert (E : allocate gauss_zero 1 p 0%nat = (fst (fst r), snd (fst r), snd r))
    by (unfold r; destruct (allocate gauss_zero 1 p 0%nat) as [[a b] c]; reflexivity).
  assert (Hrr : forall gi, exists gi', roll_ratios gauss_zero (stocks _ p) [] gi =
                  (gi', inr (combine (keys (stocks _ p)) (map Fin [1; Q2Qc 2])))).
  { intro gi. eexists. vm_compute. fin_congr. }
  assert (HS : fold_right Qcplus 0 [1; Q2Qc 2] <> 0).
  { intro H0. apply (f_equal this) in H0. vm_compute in H0. discriminate. }
  split; [exact Hnd|]. split; [exact Hn|]. split; [exact E|].
  split; [vm_compute; fin_congr|]. split; [exact HS|].
  destruct (trial_weights_normalized gauss_zero 1 p (fst (fst r)) 0%nat (snd (fst r)) (snd r)
              Hnd Hn E) as (fr & Hfr & Hc & Hl & Hrows).
  assert (Hsome : exists row, nth_error (frame_data _ fr) 0 = Some row).
  { destruct (nth_error (frame_data _ fr) 0) as [row|] eqn:Er; [eauto|].
    apply nth_error_None in Er. rewrite Hl in Er. simpl in Er. lia. }
  destruct Hsome as [row Hrow]. exists fr, row. split; [exact Hfr|]. split; [exact Hrow|].
  destruct (Hrows 0%nat row Hrow) as [[He _]|(gi & gi' & rs & Hroll & Hw & Hq)].
  - exfalso. apply He. vm_compute. reflexivity.
  - destruct (Hrr gi) as [gi'' Hr]. rewrite Hr in Hroll. injection Hroll as _ Hc'.
    assert (Hrs : exists rest, rs = map Fin [1; Q2Qc 2] ++ rest).
    { destruct rs as [|x1 [|x2 rest]]; vm_compute in Hc'; [discriminate Hc' | discriminate Hc' |].
      injection Hc' as <- <-. exists rest. reflexivity. }
    destruct Hrs as [rest ->].
    assert (Hr2 : List.length row = 2%nat).
    { clear -Hrow Hfr. unfold r in Hfr. vm_compute in Hfr. injection Hfr as <-.
      vm_compute in Hrow. injection Hrow as <-. reflexivity. }
    assert (Hrest : rest = []).
    { apply (f_equal (@List.length _)) in Hw. rewrite length_map, length_app, Hr2 in Hw.
      destruct rest; [reflexivity | simpl in Hw; lia]. }
    subst rest. rewrite app_nil_r in Hq.
    exact (Hq [1; Q2Qc 2] eq_refl HS).
Defined.

(** ** A trial whose ratios sum to zero *)

(** C2 (counterexample): two stocks with value ratios 1 and -1 (sum 0).
    [allocate(1)] raises nothing; the trial row is [+inf, -inf], not nan,
    and so is the mean allocation. *)
Lemma zero_sum_trial_infinite_weights :
  let d := match stocks_of_rows [row_up; row_down] with inr d => d | inl _ => [] end in
  stocks_of_rows [row_up; row_down] = inr d /\
  roll_ratios gauss_zero d [] 0%nat =
    (6%nat, inr [("UP"%string, Fin 1); ("DOWN"%string, Fin (Q2Qc (-1)%Q))]) /\
  allocate gauss_zero 1 (Portfolio_init d) 0%nat =
    (mkPortfolio d (Some [("UP"%string, Inf false); ("DOWN"%string, Inf true)])
       (Some (mkFrame ["UP"%string; "DOWN"%string] [[Inf false; Inf true]])),
     6%nat, None).
Proof.
  intro d. split; [|split]; [vm_compute; reflexivity | | vm_compute; reflexivity].
  vm_compute. fin_congr.
Qed.

(** C2 (amended): when the finite ratios drawn in a trial sum to exactly 0,
    normalization raises nothing; each weight is [ratio / 0], which numpy
    makes +inf for a positive ratio, -inf for a negative one and nan for a
    zero one.  The mean allocation does not propagate nan: pandas' mean of
    a column skips its nan entries. *)
Theorem zero_sum_trial_weights (gauss : nat -> xfloat) (d : dict (Stock xfloat))
    (g g' : nat) (qs : list Qc) :
  NoDup (keys d) -> List.length qs = List.length d ->
  roll_ratios gauss d [] g = (g', inr (combine (keys d) (map Fin qs))) ->
  fold_right Qcplus 0 qs = 0 ->
  _allocate_once gauss d g =
    (g', inr (combine (keys d)
                (map (fun q => if Qc_eqb q 0 then NaN else Inf (Qc_ltb q 0)) qs))) /\
  (forall xs : list xfloat, nanmean xs = nanmean (filter (fun x => negb (f_isnan x)) xs)).
Proof.
  intros Hnd Hl Er HS. split; [|exact nanmean_skips_nan].
  rewrite (allocate_once_of_ratios gauss d (map Fin qs) g g' Hnd ltac:(rewrite length_map; exact Hl) Er).
  rewrite (weights_zero_sum qs HS). reflexivity.
Qed.

Lemma zero_sum_trial_weights_witness :
  let d := match stocks_of_rows [row_up; row_down] with inr d => d | inl _ => [] end in
  let qs := [1; Q2Qc (-1)%Q] in
  NoDup (keys d) /\ List.length qs = List.length d /\
  roll_ratios gauss_zero d [] 0%nat = (6%nat, inr (combine (keys d) (map Fin qs))) /\
  fold_right Qcplus 0 qs = 0 /\
  _allocate_once gauss_zero d 0%nat =
    (6%nat, inr (combine (keys d)
                (map (fun q => if Qc_eqb q 0 then NaN else Inf (Qc_ltb q 0)) qs))) /\
  (forall xs : list xfloat, nanmean xs = nanmean (filter (fun x => negb (f_isnan x)) xs)).
Proof.
  intros d qs.
  assert (Hnd : NoDup (keys d)).
  { vm_compute. constructor; [intros [H|[]]; discriminate H | constructor; [intros []|constructor]]. }
  assert (Hl : List.length qs = List.length d) by (vm_compute; reflexivity).
  assert (Er : roll_ratios gauss_zero d [] 0%nat = (6%nat, inr (combine (keys d) (map Fin qs))))
    by (vm_compute; fin_congr).
  assert (HS : fold_right Qcplus 0 qs = 0) by (apply Qc_is_canon; vm_compute; reflexivity).
  split; [exact Hnd|]. split; [exact Hl|]. split; [exact Er|]. split; [exact HS|].
  exact (zero_sum_trial_weights gauss_zero d 0%nat 6%nat qs Hnd Hl Er HS).
Defined.

(** ** What [allocate] changes *)

(** C9 (counterexample): in binary64, a portfolio of the stock of
    [row_unpredictable] (cash flow per share 1, standard deviation 0.5)
    allocates once, with mean allocation 1.  The next call draws a cash
    flow of 1 + 0.5 x (-2) = 0 and raises [ZeroDivisionError].  That call
    has replaced the trial frame by a fresh frame of zeros, but the mean
    allocation of the first call is still there: it was neither recomputed
    nor overwritten. *)
Lemma allocate_raise_keeps_old_mean :
  let d := match stocks_of_rows [row_unpredictable] with inr d => d | inl _ => [] end in
  let p0 := Portfolio_init d in
  stocks_of_rows [row_unpredictable] = inr d /\
  match d with
  | [(_, s)] => vl_cash_flow_per_share_std_dev _ s = 0.5%float /\
                vl_cash_flow_per_share _ (attrs _ s)
                  +. vl_cash_flow_per_share_std_dev _ s *. gauss_sixth_neg2 5 = 0%float
  | _ => False
  end /\
  let '(p1, g1, e1) := allocate gauss_sixth_neg2 1 p0 0%nat in
  e1 = None /\ g1 = 3%nat /\
  mean_allocations _ p1 = Some [("U"%string, 1%float)] /\
  allocate gauss_sixth_neg2 1 p1 g1 =
    (mkPortfolio d (Some [("U"%string, 1%float)])
       (Some (mkFrame ["U"%string] [[0%float]])),
     6%nat, Some ZeroDivisionError).
Proof. intros d p0. vm_compute. repeat split; reflexivity. Qed.

(** C9 (amended): [allocate] never changes the stock mapping.  A call that
    returns overwrites the trial frame and the mean allocation with values
    that do not depend on the previous ones.  A call with a count >= 0
    that raises overwrites the trial frame but keeps the previous mean
    allocation; a call with a negative count raises [ValueError] and
    changes nothing. *)
Theorem allocate_frame {F} `{PyFloat F} (gauss : nat -> F) (n : Z) (p p' : Portfolio F)
    (g g' : nat) (e : option exn) :
  allocate gauss n p g = (p', g', e) ->
  stocks _ p' = stocks _ p /\
  (e = None -> forall m t, allocate gauss n (mkPortfolio (stocks _ p) m t) g = (p', g', None)) /\
  ((0 <= n)%Z -> e <> None ->
     mean_allocations _ p' = mean_allocations _ p /\
     forall m t, allocate gauss n (mkPortfolio (stocks _ p) m t) g =
                 (mkPortfolio (stocks _ p) m (allocation_trials _ p'), g', e)) /\
  ((n < 0)%Z -> p' = p /\ g' = g /\ e = Some ValueError).
Proof.
  unfold allocate. intro E. destruct (Z.ltb_spec n 0) as [Hn|Hn].
  - injection E as <- <- <-. repeat split; try discriminate; intros; try lia.
  - simpl. destruct (fill_trials gauss (stocks _ p) _ _ g) as [[fr g1] [e1|]];
      injection E as <- <- <-; simpl.
    + repeat split; try discriminate; intros; try lia.
    + repeat split; try discriminate; intros; try lia; congruence.
Qed.

Lemma allocate_frame_witness :
  let p := Portfolio_init [("UP"%string, stock_up)] in
  let r := allocate gauss_zero 1 p 0%nat in
  allocate gauss_zero 1 p 0%nat = (fst (fst r), snd (fst r), snd r) /\
  stocks _ (fst (fst r)) = stocks _ p /\
  (snd r = None -> forall m t,
     allocate gauss_zero 1 (mkPortfolio (stocks _ p) m t) 0%nat = (fst (fst r), snd (fst r), None)) /\
  ((0 <= 1)%Z -> snd r <> None ->
     mean_allocations _ (fst (fst r)) = mean_allocations _ p /\
     forall m t, allocate gauss_zero 1 (mkPortfolio (stocks _ p) m t) 0%nat =
                 (mkPortfolio (stocks _ p) m (allocation_trials _ (fst (fst r))), snd (fst r), snd r)) /\
  ((1 < 0)%Z -> fst (fst r) = p /\ snd (fst r) = 0%nat /\ snd r = Some ValueError).
Proof.
  intros p r.
  assert (E : allocate gauss_zero 1 p 0%nat = (fst (fst r), snd (fst r), snd r))
    by (unfold r; destruct (allocate gauss_zero 1 p 0%nat) as [[a b] c]; reflexivity).
  split; [exact E|].
  exact (allocate_frame gauss_zero 1 p (fst (fst r)) 0%nat (snd (fst r)) (snd r) E).
Defined.

(** * More of the program *)

(** ** Facts about the rest of the code *)

Lemma xf_eq_zero (x : xfloat) : f_eq x (f_of_Z 0) = true <-> x = Fin 0.
Proof.
  rewrite xf_of_Z_0. destruct x as [a|[]|]; simpl; try (split; discriminate).
  change (Qc_eqb a 0 = true <-> Fin a = Fin 0). rewrite Qc_eqb_true.
  split; [intros ->; reflexivity | intro E; injection E; auto].
Qed.

(** The constructor raises only at the final division of
    [_calculate_wacc], exactly when the total capital is 0. *)
Lemma Stock_init_raise (row : Row xfloat) :
  (forall e, Stock_init row = inl e ->
     e = ZeroDivisionError /\ total_capital (stock_attributes row) = Fin 0) /\
  (total_capital (stock_attributes row) = Fin 0 -> Stock_init row = inl ZeroDivisionError).
Proof.
  unfold Stock_init. set (a := stock_attributes row).
  destruct (_derive_distributions a) as [[cf_sd rotc_sd] pb_sd].
  unfold _calculate_wacc.
  destruct (after_tax_historical_cost_of_debt a) as [e|atc] eqn:Hatc;
    [exfalso; exact (after_tax_cost_of_debt_no_raise a e Hatc)|].
  destruct (cost_of_preferred_equity a) as [e|cpe] eqn:Hcpe;
    [exfalso; exact (cost_of_preferred_equity_no_raise a e Hcpe)|].
  unfold py_div.
  destruct (f_eq (total_capital a) (f_of_Z 0)) eqn:Ez; cbn [sbind].
  - apply xf_eq_zero in Ez. split; [intros e E; injection E as <-; auto | reflexivity].
  - split; [discriminate|]. intro Hz. apply xf_eq_zero in Hz. congruence.
Qed.

(** [roll_once] raises [ValueError] exactly when one of the three
    standard deviations is refused by [np.random.normal]. *)
Lemma roll_once_value_error {F} `{PyFloat F} (gauss : nat -> F) (s : Stock F) (g : nat) :
  (exists g', roll_once gauss s g = (g', inl ValueError)) <->
  scale_ok (vl_return_on_total_capital_std_dev _ s) &&
  scale_ok (vl_retained_earnings_plowback_ratio_std_dev _ s) &&
  scale_ok (vl_cash_flow_per_share_std_dev _ s) = false.
Proof.
  unfold roll_once, mbind, normal, mlift, mret.
  destruct (scale_ok (vl_return_on_total_capital_std_dev _ s)); simpl;
    [|split; [reflexivity | intros _; eexists; reflexivity]].
  destruct (scale_ok (vl_retained_earnings_plowback_ratio_std_dev _ s)); simpl;
    [|split; [reflexivity | intros _; eexists; reflexivity]].
  destruct (scale_ok (vl_cash_flow_per_share_std_dev _ s)); simpl;
    [|split; [reflexivity | intros _; eexists; reflexivity]].
  unfold py_div. destruct (f_eq _ _); simpl; split; try discriminate;
    intros [g' E]; discriminate.
Qed.

Section Draws.
Context {F : Type} `{PyFloat F}.
Variable gauss : nat -> F.

Lemma roll_once_ok_draws (s : Stock F) (g g' : nat) t :
  roll_once gauss s g = (g', inr t) -> g' = S (S (S g)).
Proof.
  unfold roll_once, mbind, normal, mlift, mret.
  destruct (scale_ok (vl_return_on_total_capital_std_dev _ s)); [|discriminate].
  destruct (scale_ok (vl_retained_earnings_plowback_ratio_std_dev _ s)); [|discriminate].
  destruct (scale_ok (vl_cash_flow_per_share_std_dev _ s)); [|discriminate].
  destruct (py_div _ _); [discriminate|]. intro E. injection E as <- _. reflexivity.
Qed.

Lemma roll_once_not_key_error (s : Stock F) (g g' : nat) e :
  roll_once gauss s g = (g', inl e) -> e <> KeyError.
Proof.
  unfold roll_once, mbind, normal, mlift, mret.
  destruct (scale_ok (vl_return_on_total_capital_std_dev _ s));
    [|intro E; injection E as _ <-; discriminate].
  destruct (scale_ok (vl_retained_earnings_plowback_ratio_std_dev _ s));
    [|intro E; injection E as _ <-; discriminate].
  destruct (scale_ok (vl_cash_flow_per_share_std_dev _ s));
    [|intro E; injection E as _ <-; discriminate].
  unfold py_div. destruct (f_eq _ _); intro E; inversion E; discriminate.
Qed.

Lemma roll_ratios_ok_draws (items : dict (Stock F)) (acc res : dict F) (g g' : nat) :
  roll_ratios gauss items acc g = (g', inr res) -> g' = (g + 3 * List.length items)%nat.
Proof.
  revert acc g. induction items as [|[k s] items IH]; intros acc g E; simpl in E.
  - unfold mret in E. injection E as <- _. simpl. lia.
  - unfold mbind at 1 in E.
    destruct (roll_once gauss s g) as [g1 [e|[[gr v] r]]] eqn:Er; [discriminate|].
    apply roll_once_ok_draws in Er. apply IH in E. simpl. lia.
Qed.

(** An exception of the ratio loop is one raised by [roll_once] on one of
    the stocks. *)
Lemma roll_ratios_raise (items : dict (Stock F)) (acc : dict F) (g g' : nat) e :
  roll_ratios gauss items acc g = (g', inl e) ->
  exists k s g0, In (k, s) items /\ roll_once gauss s g0 = (g', inl e).
Proof.
  revert acc g. induction items as [|[k s] items IH]; intros acc g E; simpl in E;
    [discriminate|].
  unfold mbind at 1 in E.
  destruct (roll_once gauss s g) as [g1 [e1|[[gr v] r]]] eqn:Er.
  - injection E as <- <-. exists k, s, g. split; [left; reflexivity | exact Er].
  - destruct (IH _ _ E) as (k' & s' & g0 & Hin & Hr).
    exists k', s', g0. split; [right; exact Hin | exact Hr].
Qed.

(** The ratio loop raises when one of the stocks raises at every draw. *)
Lemma roll_ratios_raises_if (items : dict (Stock F)) (acc : dict F) (g : nat) k s :
  In (k, s) items -> (forall g0, exists g1 e, roll_once gauss s g0 = (g1, inl e)) ->
  exists g' e, roll_ratios gauss items acc g = (g', inl e).
Proof.
  intros Hin Hs. revert acc g. induction items as [|[k' s'] items IH]; intros acc g;
    [destruct Hin|].
  simpl. unfold mbind at 1.
  destruct Hin as [Heq|Hin].
  - injection Heq as -> ->. destruct (Hs g) as (g1 & e & ->). eauto.
  - destruct (roll_once gauss s' g) as [g1 [e1|[[gr v] r]]]; [eauto|]. apply IH. exact Hin.
Qed.

Lemma allocate_once_ok_draws (d : dict (Stock F)) (g g' : nat) allocs :
  _allocate_once gauss d g = (g', inr allocs) -> g' = (g + 3 * List.length d)%nat.
Proof.
  unfold _allocate_once, mbind.
  destruct (roll_ratios gauss d [] g) as [g1 [e|ratios]] eqn:Er; [discriminate|].
  unfold mlift. intro E. injection E as <- _. exact (roll_ratios_ok_draws _ _ _ _ _ Er).
Qed.

Lemma allocate_once_raise (d : dict (Stock F)) (g g' : nat) e :
  NoDup (keys d) -> _allocate_once gauss d g = (g', inl e) ->
  exists k s g0, In (k, s) d /\ roll_once gauss s g0 = (g', inl e).
Proof.
  intros Hnd E.
  destruct (roll_ratios gauss d [] g) as [g1 [e1|ratios]] eqn:Er.
  - unfold _allocate_once, mbind in E. rewrite Er in E. injection E as <- <-.
    exact (roll_ratios_raise _ _ _ _ _ Er).
  - destruct (roll_ratios_spec gauss d [] ratios g g1 Hnd (fun _ _ H => H) Er) as (rs & Hl & Hr).
    simpl in Hr. subst ratios.
    rewrite (allocate_once_of_ratios gauss d rs g g1 Hnd Hl Er) in E. discriminate.
Qed.

Lemma fill_trials_ok_draws (stocks : dict (Stock F)) (idx : list nat) (fr fr' : Frame F)
    (g g' : nat) :
  fill_trials gauss stocks idx fr g = (fr', g', None) ->
  g' = (g + 3 * List.length stocks * List.length idx)%nat.
Proof.
  revert fr g. induction idx as [|i idx IH]; intros fr g E; simpl in E.
  - injection E as _ <-. simpl. lia.
  - destruct (_allocate_once gauss stocks g) as [g1 [e|allocs]] eqn:Ea; [discriminate|].
    apply allocate_once_ok_draws in Ea. apply IH in E. simpl. lia.
Qed.

End Draws.

Section Alloc.
Context {F : Type} `{PyFloat F}.
Variable gauss : nat -> F.

Lemma allocate_ok_draws (n : Z) (p p' : Portfolio F) (g g' : nat) :
  allocate gauss n p g = (p', g', None) ->
  g' = (g + 3 * List.length (stocks _ p) * Z.to_nat n)%nat.
Proof.
  unfold allocate. destruct (n <? 0)%Z; [discriminate|].
  destruct (fill_trials gauss _ _ _ g) as [[fr g1] [e1|]] eqn:Ef; [discriminate|].
  intro E. injection E as _ <-. apply fill_trials_ok_draws in Ef.
  rewrite length_seq in Ef. exact Ef.
Qed.

(** A stock that raises at every draw makes every trial raise. *)
Lemma allocate_once_raises_if (d : dict (Stock F)) (g : nat) k s :
  In (k, s) d -> (forall g0, exists g1 e, roll_once gauss s g0 = (g1, inl e)) ->
  exists g' e, _allocate_once gauss d g = (g', inl e).
Proof.
  intros Hin Hs. destruct (roll_ratios_raises_if gauss d [] g k s Hin Hs) as (g' & e & Er).
  exists g', e. unfold _allocate_once, mbind. rewrite Er. reflexivity.
Qed.

Lemma fill_trials_first_raise (d : dict (Stock F)) (i : nat) (idx : list nat) (fr : Frame F)
    (g : nat) k s :
  In (k, s) d -> (forall g0, exists g1 e, roll_once gauss s g0 = (g1, inl e)) ->
  exists g' e, fill_trials gauss d (i :: idx) fr g = (fr, g', Some e).
Proof.
  intros Hin Hs. destruct (allocate_once_raises_if d g k s Hin Hs) as (g' & e & Ea).
  exists g', e. simpl. rewrite Ea. reflexivity.
Qed.

(** A trial writes only its own row. *)
Lemma fill_trials_keeps (stocks : dict (Stock F)) (idx : list nat) (fr fr' : Frame F)
    (g g' : nat) e i :
  ~ In i idx -> fill_trials gauss stocks idx fr g = (fr', g', e) ->
  frame_columns _ fr' = frame_columns _ fr /\
  nth_error (frame_data _ fr') i = nth_error (frame_data _ fr) i.
Proof.
  revert fr g. induction idx as [|i0 idx IH]; intros fr g Hi E; simpl in E.
  - injection E as <- _ _. split; reflexivity.
  - destruct (_allocate_once gauss stocks g) as [g1 [e1|allocs]].
    + injection E as <- _ _. split; reflexivity.
    + destruct (IH _ _ (fun H => Hi (or_intror H)) E) as [Hc Hn]. simpl in Hc, Hn.
      split; [exact Hc|]. rewrite Hn, nth_error_set_nth.
      destruct (Nat.eqb_spec i0 i) as [->|]; [exfalso; apply Hi; left; reflexivity|reflexivity].
Qed.

(** In a loop that returns, the [j]-th trial starts at the position
    [3 x (number of stocks) x j] after the first, and its allocations fill
    row [start + j]. *)
Lemma fill_trials_positions (stocks : dict (Stock F)) (m start : nat) (fr fr' : Frame F)
    (g g' : nat) :
  fill_trials gauss stocks (seq start m) fr g = (fr', g', None) ->
  (start + m <= List.length (frame_data _ fr))%nat ->
  forall j, (j < m)%nat -> exists gi' allocs,
    _allocate_once gauss stocks (g + 3 * List.length stocks * j)%nat = (gi', inr allocs) /\
    nth_error (frame_data _ fr') (start + j)%nat = Some (align (frame_columns _ fr) allocs).
Proof.
  revert start fr g. induction m as [|m IH]; intros start fr g E Hl j Hj; [lia|].
  simpl in E. destruct (_allocate_once gauss stocks g) as [g1 [e1|allocs]] eqn:Ea;
    [discriminate|].
  pose proof (allocate_once_ok_draws gauss _ _ _ _ Ea) as Hg1.
  destruct j as [|j].
  - exists g1, allocs. rewrite Nat.mul_0_r, !Nat.add_0_r. split; [exact Ea|].
    destruct (fill_trials_keeps stocks (seq (S start) m) _ _ _ _ _ start
                ltac:(intro Hin; apply in_seq in Hin; lia) E) as [_ Hn].
    rewrite Hn. cbn [frame_data]. rewrite nth_error_set_nth, Nat.eqb_refl.
    destruct (nth_error (frame_data _ fr) start) eqn:Es; [reflexivity|].
    apply nth_error_None in Es. lia.
  - destruct (IH (S start) _ g1 E ltac:(cbn [frame_data]; rewrite length_set_nth; lia) j
                ltac:(lia)) as (gi' & al & Ha & Hn).
    exists gi', al. split.
    + replace (g + 3 * List.length stocks * S j)%nat with (g1 + 3 * List.length stocks * j)%nat
        by (rewrite Hg1; nia).
      exact Ha.
    + replace (start + S j)%nat with (S start + j)%nat by lia. exact Hn.
Qed.

(** The rows of the frame left by an [allocate] that returns: row [i] holds
    the allocations of the trial started at position [3 x (number of stocks)
    x i] after the first. *)
Lemma allocate_trial_rows (n : Z) (p p' : Portfolio F) (g g' : nat) :
  allocate gauss n p g = (p', g', None) ->
  exists fr, allocation_trials _ p' = Some fr /\ List.length (frame_data _ fr) = Z.to_nat n /\
    forall i, (i < Z.to_nat n)%nat -> exists gi' allocs,
      _allocate_once gauss (stocks _ p) (g + 3 * List.length (stocks _ p) * i)%nat = (gi', inr allocs) /\
      nth_error (frame_data _ fr) i = Some (align (keys (stocks _ p)) allocs).
Proof.
  unfold allocate. destruct (n <? 0)%Z; [discriminate|].
  destruct (fill_trials gauss _ _ _ g) as [[fr g1] [e1|]] eqn:Ef; [discriminate|].
  intro E. injection E as <- _. exists fr. split; [reflexivity|].
  destruct (fill_trials_spec gauss _ _ _ _ _ _ _ Ef) as (_ & Hl & _).
  cbn [frame_data] in Hl. rewrite repeat_length in Hl. split; [exact Hl|].
  intros i Hi.
  exact (fill_trials_positions _ (Z.to_nat n) 0 _ _ _ _ Ef
           ltac:(cbn [frame_data]; rewrite repeat_length; lia) i Hi).
Qed.

End Alloc.

Section Dicts.
Context {A : Type}.

Lemma dict_get_set (d : dict A) k v k' :
  dict_get (dict_set d k v) k' = if String.eqb k' k then Some v else dict_get d k'.
Proof.
  induction d as [|[k0 v0] d IH]; simpl.
  - reflexivity.
  - destruct (String.eqb_spec k k0) as [->|Hne]; simpl.
    + destruct (String.eqb k' k0); reflexivity.
    + rewrite IH. destruct (String.eqb_spec k' k0) as [->|]; [|reflexivity].
      destruct (String.eqb_spec k0 k); [congruence|reflexivity].
Qed.

Lemma keys_dict_set (d : dict A) k v k' :
  In k' (keys (dict_set d k v)) <-> k' = k \/ In k' (keys d).
Proof.
  induction d as [|[k0 v0] d IH]; simpl.
  - intuition congruence.
  - destruct (String.eqb_spec k k0) as [->|Hne]; simpl; [intuition congruence|]. rewrite IH. intuition congruence.
Qed.

Lemma keys_dict_set_eq (d : dict A) k v :
  In k (keys d) -> keys (dict_set d k v) = keys d.
Proof.
  induction d as [|[k0 v0] d IH]; simpl; [intros []|].
  destruct (String.eqb_spec k k0) as [->|Hne]; simpl; [reflexivity|].
  intros [->|Hin]; [congruence|]. rewrite IH by exact Hin. reflexivity.
Qed.

Lemma NoDup_keys_dict_set (d : dict A) k v :
  NoDup (keys d) -> NoDup (keys (dict_set d k v)).
Proof.
  intro Hnd. destruct (in_dec String.string_dec k (keys d)) as [Hin|Hout].
  - rewrite keys_dict_set_eq by exact Hin. exact Hnd.
  - rewrite dict_set_absent by exact Hout. rewrite keys_app. simpl.
    apply NoDup_app; [exact Hnd | constructor; [intros []|constructor] |].
    intros x Hx [<-|[]]. contradiction.
Qed.

End Dicts.

Section ImportRows.
Context {F : Type} `{PyFloat F}.

Lemma import_rows_get_other (rows : list (Row F)) (acc d : dict (Stock F)) k :
  import_rows rows acc = inr d -> (forall r, In r rows -> row_Stock _ r <> k) ->
  dict_get d k = dict_get acc k.
Proof.
  revert acc. induction rows as [|row rows IH]; intros acc E Hk; simpl in E.
  - injection E as <-. reflexivity.
  - destruct (Stock_init row) as [e|s]; [discriminate|]. cbn [sbind] in E.
    rewrite (IH _ E) by (intros r Hr; apply Hk; right; exact Hr).
    rewrite dict_get_set. destruct (String.eqb_spec k (row_Stock _ row)) as [Heq|]; [|reflexivity].
    exfalso. exact (Hk row (or_introl eq_refl) (eq_sym Heq)).
Qed.

Lemma import_rows_get_last (pre post : list (Row F)) (row : Row F) (acc d : dict (Stock F)) :
  import_rows (pre ++ row :: post) acc = inr d ->
  (forall r, In r post -> row_Stock _ r <> row_Stock _ row) ->
  exists s, Stock_init row = inr s /\ dict_get d (row_Stock _ row) = Some s.
Proof.
  revert acc. induction pre as [|r0 pre IH]; intros acc E Hpost; simpl in E.
  - destruct (Stock_init row) as [e|s]; [discriminate|]. cbn [sbind] in E.
    exists s. split; [reflexivity|].
    rewrite (import_rows_get_other _ _ _ _ E Hpost), dict_get_set, String.eqb_refl.
    reflexivity.
  - destruct (Stock_init r0) as [e|s0]; [discriminate|]. cbn [sbind] in E.
    exact (IH _ E Hpost).
Qed.

Lemma import_rows_keys (rows : list (Row F)) (acc d : dict (Stock F)) :
  import_rows rows acc = inr d ->
  (NoDup (keys acc) -> NoDup (keys d)) /\
  (forall k, In k (keys d) <-> In k (keys acc) \/ In k (map (row_Stock _) rows)).
Proof.
  revert acc. induction rows as [|row rows IH]; intros acc E; simpl in E.
  - injection E as <-. simpl. split; [auto|]. intro k. tauto.
  - destruct (Stock_init row) as [e|s]; [discriminate|]. cbn [sbind] in E.
    destruct (IH _ E) as [Hnd Hk]. split.
    + intro Hacc. apply Hnd, NoDup_keys_dict_set, Hacc.
    + intro k. rewrite Hk, keys_dict_set. simpl. intuition congruence.
Qed.

Lemma import_rows_ok_all (rows : list (Row F)) (acc d : dict (Stock F)) :
  import_rows rows acc = inr d -> forall r, In r rows -> exists s, Stock_init r = inr s.
Proof.
  revert acc. induction rows as [|row rows IH]; intros acc E r Hr; simpl in E; [destruct Hr|].
  destruct (Stock_init row) as [e|s] eqn:Es; [discriminate|]. cbn [sbind] in E.
  destruct Hr as [<-|Hr]; [eauto|exact (IH _ E r Hr)].
Qed.

(** An exception of the import is the one of the first row whose [Stock]
    constructor raises. *)
Lemma import_rows_raise (rows : list (Row F)) (acc : dict (Stock F)) e :
  import_rows rows acc = inl e <->
  exists pre row post, rows = pre ++ row :: post /\
    (forall r, In r pre -> exists s, Stock_init r = inr s) /\ Stock_init row = inl e.
Proof.
  revert acc. induction rows as [|row rows IH]; intro acc; simpl.
  - split; [discriminate|]. intros ([|? ?] & ? & ? & E & _); discriminate.
  - destruct (Stock_init row) as [e0|s] eqn:Es; cbn [sbind].
    + split.
      * intro E. injection E as <-. exists [], row, rows. split; [reflexivity|].
        split; [intros _ []|exact Es].
      * intros ([|r0 pre] & row' & post & Eq & Hpre & Hr).
        -- injection Eq as <- <-. congruence.
        -- injection Eq as <- Eq. destruct (Hpre row (or_introl eq_refl)) as [s Hs]. congruence.
    + rewrite IH. split.
      * intros (pre & row' & post & -> & Hpre & Hr). exists (row :: pre), row', post.
        split; [reflexivity|]. split; [|exact Hr].
        intros r [<-|Hin]; [eauto|exact (Hpre r Hin)].
      * intros ([|r0 pre] & row' & post & Eq & Hpre & Hr).
        -- injection Eq as <- <-. congruence.
        -- injection Eq as <- ->. exists pre, row', post. split; [reflexivity|].
           split; [|exact Hr]. intros r Hin. apply Hpre. right. exact Hin.
Qed.

Lemma import_rows_ok_iff (rows : list (Row F)) (acc : dict (Stock F)) :
  (exists d, import_rows rows acc = inr d) <-> forall r, In r rows -> exists s, Stock_init r = inr s.
Proof.
  revert acc. induction rows as [|row rows IH]; intro acc; simpl.
  - split; [intros _ _ []|eauto].
  - destruct (Stock_init row) as [e0|s] eqn:Es; cbn [sbind].
    + split; [intros [d E]; discriminate|]. intro Hall.
      destruct (Hall row (or_introl eq_refl)) as [s Hs]. congruence.
    + rewrite IH. split.
      * intros Hall r [<-|Hr]; [eauto|exact (Hall r Hr)].
      * intros Hall r Hr. apply Hall. right. exact Hr.
Qed.

End ImportRows.

Section NegativeMetric.

Lemma Qc_mul_neg_iff (d x : Qc) : (0 < d)%Qc -> ((d * x < 0)%Qc <-> (x < 0)%Qc).
Proof.
  unfold Qclt, Qcmult, Q2Qc. cbn [this]. rewrite (Qred_correct (d * x)).
  change (Qred 0) with 0%Q. intro Hd.
  rewrite <- (Qmult_lt_l x 0 d Hd). rewrite Qmult_0_r. reflexivity.
Qed.

Lemma Qc_div100_neg_iff (x : Qc) : ((x / Q2Qc (inject_Z 100) < 0)%Qc <-> (x < 0)%Qc).
Proof.
  unfold Qclt, Qcdiv, Qcmult, Qcinv, Q2Qc. cbn [this]. rewrite Qred_correct.
  change (Qred 0) with 0%Q. change (Qred (/ Qred (inject_Z 100))) with (1 # 100)%Q.
  split; intro; lra.
Qed.

(** The factor of [_derive_distributions] at a predictability of [p]
    percent. *)
Local Abbreviation factor_q p :=
  (Q2Qc (inject_Z 50) / Q2Qc (inject_Z 100)
   - Q2Qc (inject_Z 45) / Q2Qc (inject_Z 100) * (p / Q2Qc (inject_Z 100)))%Qc.

Lemma factor_q_pos (p : Qc) : (p <= Q2Qc (inject_Z 100))%Qc -> (0 < factor_q p)%Qc.
Proof.
  unfold Qcle, Qclt, Qcminus, Qcplus, Qcopp, Qcdiv, Qcmult, Qcinv, Q2Qc. cbn [this].
  repeat rewrite Qred_correct. change (/ inject_Z 100)%Q with (1 # 100)%Q.
  intro Hp. unfold inject_Z in * . lra.
Qed.

Lemma xf_div_100 (a : Qc) : Fin a /. f_of_Z 100 = Fin (a / Q2Qc (inject_Z 100)).
Proof. reflexivity. Qed.

Lemma dispersion_factor_fin (p : Qc) :
  dispersion_factor (Fin p /. f_of_Z 100) = Fin (factor_q p).
Proof. reflexivity. Qed.

Lemma scale_ok_fin (x : Qc) : scale_ok (Fin x) = negb (Qc_ltb x 0).
Proof. unfold scale_ok. rewrite xf_isnan_fin. reflexivity. Qed.

Lemma scale_ok_scaled (p x : Qc) :
  (p <= Q2Qc (inject_Z 100))%Qc ->
  scale_ok (Fin (factor_q p) *. Fin x) = false <-> (x < 0)%Qc.
Proof.
  intro Hp. change (Fin (factor_q p) *. Fin x) with (Fin (factor_q p * x)).
  rewrite scale_ok_fin, negb_false_iff, Qc_ltb_true.
  apply Qc_mul_neg_iff, factor_q_pos, Hp.
Qed.

Lemma roll_once_negative_metric (gauss : nat -> xfloat) (row : Row xfloat) (s : Stock xfloat)
    (p r b c : Qc) (g : nat) :
  Stock_init row = inr s ->
  row_VL_Earnings_Predictability _ row = Fin p -> (p <= Q2Qc (inject_Z 100))%Qc ->
  row_VL_ROTC _ row = Fin r -> row_VL_Plowback_Ratio _ row = Fin b ->
  row_VL_Cash_Flow_Per_Share _ row = Fin c ->
  (exists g', roll_once gauss s g = (g', inl ValueError)) <-> (r < 0 \/ b < 0 \/ c < 0)%Qc.
Proof.
  intros Hs Hp Hp100 Hr Hb Hc.
  destruct (Stock_init_std_devs row s Hs) as (Ha & Hcf & Hrotc & Hpb).
  rewrite roll_once_value_error, Hcf, Hrotc, Hpb, Ha. unfold stock_attributes. cbn [vl_earnings_predictability vl_cash_flow_per_share vl_return_on_total_capital vl_retained_earnings_plowback_ratio].
  rewrite Hp, Hr, Hb, Hc, dispersion_factor_fin, !xf_div_100.
  rewrite !andb_false_iff, !scale_ok_scaled by exact Hp100.
  rewrite !Qc_div100_neg_iff. tauto.
Qed.

End NegativeMetric.

Section Rows.
Context {F : Type} `{PyFloat F}.
Variable gauss : nat -> F.

Lemma roll_rows_ok (n : nat) (s : Stock F) (g g' : nat) ts :
  roll_rows gauss n s g = (g', inr ts) ->
  g' = (g + 3 * n)%nat /\ List.length ts = n /\
  forall i t, nth_error ts i = Some t ->
    roll_once gauss s (g + 3 * i)%nat = ((g + 3 * i + 3)%nat, inr t).
Proof.
  revert g ts. induction n as [|n IH]; intros g ts E; simpl in E.
  - unfold mret in E. injection E as <- <-. repeat split; [lia | intros [|i] t Ht; discriminate].
  - unfold mbind at 1 in E.
    destruct (roll_once gauss s g) as [g1 [e|t0]] eqn:Er; [discriminate|].
    unfold mbind in E. destruct (roll_rows gauss n s g1) as [g2 [e|ts']] eqn:Ers; [discriminate|].
    unfold mret in E. injection E as <- <-.
    pose proof (roll_once_ok_draws gauss s g g1 t0 Er) as ->.
    destruct (IH _ _ Ers) as (-> & Hl & Hi).
    repeat split; [lia | simpl; lia |].
    intros [|i] t Ht; simpl in Ht.
    + injection Ht as <-. rewrite Nat.add_0_r. rewrite Er. f_equal. lia.
    + replace (g + 3 * S i)%nat with (S (S (S g)) + 3 * i)%nat by lia.
      rewrite (Hi i t Ht). f_equal.
Qed.

Lemma roll_rows_raise (n : nat) (s : Stock F) (g g' : nat) e :
  roll_rows gauss n s g = (g', inl e) ->
  exists i, (i < n)%nat /\ roll_once gauss s (g + 3 * i)%nat = (g', inl e).
Proof.
  revert g. induction n as [|n IH]; intros g E; simpl in E; [discriminate|].
  unfold mbind at 1 in E.
  destruct (roll_once gauss s g) as [g1 [e1|t0]] eqn:Er.
  - injection E as <- <-. exists 0%nat. split; [lia|]. rewrite Nat.add_0_r. exact Er.
  - unfold mbind in E. destruct (roll_rows gauss n s g1) as [g2 [e2|ts']] eqn:Ers; [|discriminate].
    injection E as <- <-. pose proof (roll_once_ok_draws gauss s g g1 t0 Er) as ->.
    destruct (IH _ Ers) as (i & Hi & Hr). exists (S i). split; [lia|].
    replace (g + 3 * S i)%nat with (S (S (S g)) + 3 * i)%nat by lia. exact Hr.
Qed.

End Rows.

Section Hist.
Context {F : Type} `{PyFloat F}.
Variable gauss : nat -> F.

Lemma index_of_some (cols : list string) (c : string) :
  In c cols -> exists j, index_of cols c = Some j /\ nth_error cols j = Some c.
Proof.
  induction cols as [|c' cols IH]; simpl; [intros []|]. intro Hin.
  destruct (String.eqb_spec c c') as [->|Hne]; [exists 0%nat; split; reflexivity|].
  destruct Hin as [->|Hin]; [congruence|].
  destruct (IH Hin) as (j & -> & Hj). exists (S j). split; [reflexivity|exact Hj].
Qed.

Lemma histograms_ok (ks : list string) (fr : Frame F) :
  (forall k, In k ks -> In k (frame_columns _ fr)) ->
  exists hs, histograms ks (Some fr) = inr hs /\ map fst hs = ks /\
    forall k col, In (k, col) hs ->
      exists j, nth_error (frame_columns _ fr) j = Some k /\ col = column j (frame_data _ fr).
Proof.
  induction ks as [|k ks IH]; intro Hks; simpl.
  - exists []. split; [reflexivity|]. split; [reflexivity|]. intros _ _ [].
  - destruct (index_of_some (frame_columns _ fr) k (Hks k (or_introl eq_refl))) as (j & Hj & Hn).
    unfold frame_get. rewrite Hj.
    destruct IH as (hs & -> & Hf & Hc); [intros k' Hk'; apply Hks; right; exact Hk'|].
    exists ((k, column j (frame_data _ fr)) :: hs).
    split; [reflexivity|]. split; [simpl; rewrite Hf; reflexivity|].
    intros k' col [Heq|Hin]; [injection Heq as <- <-; eauto | exact (Hc k' col Hin)].
Qed.

(** Before any [allocate], the loop raises at its first iteration, and
    only when there is one. *)
Lemma histograms_no_trials (ks : list string) :
  histograms ks None = match ks with [] => inr [] | _ :: _ => inl AttributeError end.
Proof. destruct ks; reflexivity. Qed.

Lemma nth_align (cols : list string) (d : dict F) j k :
  nth_error cols j = Some k ->
  nth j (align cols d) f_nan = match dict_get d k with Some v => v | None => f_nan end.
Proof.
  intro Hj. unfold align. apply nth_error_nth.
  rewrite nth_error_map, Hj. reflexivity.
Qed.

End Hist.

Lemma plot_histograms_after_allocate {F} `{PyFloat F} (gauss : nat -> F) (n : Z)
    (p p' : Portfolio F) (g g' : nat) (e : option exn) :
  (0 <= n)%Z -> allocate gauss n p g = (p', g', e) ->
  plot_histograms (Portfolio_init (stocks _ p)) =
    match stocks _ p with [] => inr [] | _ :: _ => inl AttributeError end /\
  exists hs, plot_histograms p' = inr hs /\ map fst hs = keys (stocks _ p) /\
    forall k col, In (k, col) hs -> List.length col = Z.to_nat n /\
      forall i x, nth_error col i = Some x ->
        (e <> None /\ x = f_of_Z 0) \/
        exists gi gi' allocs, _allocate_once gauss (stocks _ p) gi = (gi', inr allocs) /\
          x = match dict_get allocs k with Some v => v | None => f_nan end.
Proof.
  intros Hn E. split.
  { unfold plot_histograms. cbn [stocks allocation_trials Portfolio_init].
    rewrite histograms_no_trials. destruct (stocks _ p); reflexivity. }
  destruct (allocate_trials gauss n p p' g g' e Hn E) as (Hs & fr & Hfr & Hc & Hl & Hrows).
  unfold plot_histograms. rewrite Hfr, Hs.
  destruct (histograms_ok (keys (stocks _ p)) fr) as (hs & Hh & Hf & Hcol);
    [rewrite Hc; auto|].
  rewrite Hh. exists hs. split; [reflexivity|]. split; [exact Hf|].
  intros k col Hin. destruct (Hcol k col Hin) as (j & Hj & ->). rewrite Hc in Hj.
  split; [unfold column; rewrite length_map; exact Hl|].
  intros i x Hx. unfold column in Hx. rewrite nth_error_map in Hx.
  destruct (nth_error (frame_data _ fr) i) as [row|] eqn:Er; [|discriminate].
  injection Hx as <-.
  destruct (Hrows i row Er) as [[He ->]|(gi & gi' & al & Ha & ->)].
  - left. split; [exact He|]. apply nth_repeat_lt.
    rewrite <- length_keys. apply nth_error_Some. congruence.
  - right. exists gi, gi', al. split; [exact Ha|]. apply nth_align. exact Hj.
Qed.

Section MeanSum.

Local Abbreviation qsum l := (fold_right Qcplus 0 l).

Lemma qsum_map_add {A} (f g : A -> Qc) (l : list A) :
  qsum (map (fun x => f x + g x) l) = qsum (map f l) + qsum (map g l).
Proof. induction l as [|x l IH]; simpl; [ring|]. rewrite IH. ring. Qed.

Lemma qsum_map_div {A} (f : A -> Qc) (c : Qc) (l : list A) :
  c <> 0 -> qsum (map (fun x => f x / c) l) = qsum (map f l) / c.
Proof. intro Hc. induction l as [|x l IH]; simpl; [field; exact Hc|]. rewrite IH. field. exact Hc. Qed.

Lemma map_nth_seq_shift {A} (a : A) (l : list A) (d : A) (n start : nat) :
  map (fun j => nth j (a :: l) d) (seq (S start) n) = map (fun j => nth j l d) (seq start n).
Proof.
  revert start. induction n as [|n IH]; intro start; [reflexivity|]. simpl. f_equal. apply IH.
Qed.

Lemma map_nth_seq_all {A} (l : list A) (d : A) :
  map (fun j => nth j l d) (seq 0 (List.length l)) = l.
Proof.
  induction l as [|a l IH]; [reflexivity|].
  change (seq 0 (List.length (a :: l))) with (0%nat :: seq 1 (List.length l)).
  rewrite map_cons, map_nth_seq_shift, IH. reflexivity.
Qed.

(** Exchange of a double sum over a matrix with rows [wss] of width [k]. *)
Lemma qsum_columns (wss : list (list Qc)) (k : nat) :
  qsum (map (fun j => qsum (map (fun ws => nth j ws 0) wss)) (seq 0 k)) =
  qsum (map (fun ws => qsum (map (fun j => nth j ws 0) (seq 0 k))) wss).
Proof.
  induction wss as [|ws wss IH]; simpl.
  - induction (seq 0 k) as [|j l IHl]; simpl; [reflexivity|]. rewrite IHl. ring.
  - rewrite (qsum_map_add (fun j => nth j ws 0)
                          (fun j => qsum (map (fun ws0 => nth j ws0 0) wss))).
    rewrite IH. reflexivity.
Qed.

Lemma Q2Qc_succ (m : nat) :
  Q2Qc (inject_Z (Z.of_nat (S m))) = 1 + Q2Qc (inject_Z (Z.of_nat m)).
Proof.
  apply Qc_is_canon. unfold Qcplus, Q2Qc. cbn [this]. rewrite !Qred_correct.
  rewrite Nat2Z.inj_succ. unfold Z.succ. rewrite inject_Z_plus. change (inject_Z 1) with 1%Q.
  change (Qred 1) with 1%Q. ring.
Qed.

Lemma Q2Qc_nat_nonzero (m : nat) : Q2Qc (inject_Z (Z.of_nat (S m))) <> 0.
Proof.
  intro E. apply (f_equal this) in E. unfold Q2Qc in E. cbn [this] in E.
  assert (H0 : (Qred (inject_Z (Z.of_nat (S m))) == 0)%Q) by (rewrite E; reflexivity).
  rewrite Qred_correct in H0. unfold Qeq in H0. simpl in H0. lia.
Qed.

Lemma qsum_ones {A} (l : list A) :
  qsum (map (fun _ => 1) l) = Q2Qc (inject_Z (Z.of_nat (List.length l))).
Proof.
  induction l as [|a l IH]; [apply Qc_is_canon; reflexivity|].
  simpl List.length. rewrite Q2Qc_succ. simpl. rewrite IH. reflexivity.
Qed.

Lemma nanmean_fin (xs : list Qc) :
  xs <> [] -> nanmean (map Fin xs) = Fin (qsum xs / Q2Qc (inject_Z (Z.of_nat (List.length xs)))).
Proof.
  intro Hne. unfold nanmean.
  assert (Hf : forall l : list Qc, filter (fun x => negb (f_isnan x)) (map Fin l) = map Fin l).
  { induction l as [|q l IH]; [reflexivity|]. cbn [map filter]. rewrite xf_isnan_fin. cbn [negb]. rewrite IH. reflexivity. }
  assert (Hm : forall l : list Qc, map (fun x => if f_isnan x then f_of_Z 0 else x) (map Fin l) = map Fin l).
  { induction l as [|q l IH]; [reflexivity|]. cbn [map]. rewrite xf_isnan_fin, IH. reflexivity. }
  rewrite Hf, Hm, length_map, np_sum_fin.
  destruct xs as [|x xs]; [congruence|]. simpl Nat.eqb. cbv iota beta.
  change (f_of_Z (Z.of_nat (List.length (x :: xs))) : xfloat)
    with (Fin (Q2Qc (inject_Z (Z.of_nat (List.length (x :: xs)))))).
  change (Fin (qsum (x :: xs)) /. Fin (Q2Qc (inject_Z (Z.of_nat (List.length (x :: xs))))) =
          Fin (qsum (x :: xs) / Q2Qc (inject_Z (Z.of_nat (List.length (x :: xs)))))).
  cbn [f_div xfloat_ops xf_div].
  rewrite (proj2 (Qc_eqb_false _ 0) (Q2Qc_nat_nonzero (List.length xs) : Q2Qc (inject_Z (Z.of_nat (List.length (x :: xs)))) <> 0)). reflexivity.
Qed.

(** The mean of a frame of finite rows of width [k], each summing to 1,
    sums to 1. *)
Lemma frame_mean_sum_one (cols : list string) (wss : list (list Qc)) :
  wss <> [] ->
  (forall ws, In ws wss -> List.length ws = List.length cols /\ qsum ws = 1) ->
  keys (frame_mean (mkFrame cols (map (map Fin) wss))) = cols /\
  np_sum (map snd (frame_mean (mkFrame cols (map (map Fin) wss)))) = Fin 1.
Proof.
  intros Hne Hws. unfold frame_mean. cbn [frame_columns frame_data].
  rewrite keys_combine, map_snd_combine by (rewrite length_map, length_seq; reflexivity).
  split; [reflexivity|].
  set (N := Q2Qc (inject_Z (Z.of_nat (List.length wss)))).
  assert (HN : N <> 0).
  { unfold N. destruct wss as [|w wss]; [congruence|]. apply Q2Qc_nat_nonzero. }
  assert (Hcol : forall j, In j (seq 0 (List.length cols)) ->
            nanmean (column j (map (map Fin) wss)) = Fin (qsum (map (fun ws => nth j ws 0) wss) / N)).
  { intros j Hj. apply in_seq in Hj.
    assert (E : column j (map (map Fin) wss) = map Fin (map (fun ws => nth j ws 0) wss)).
    { unfold column. rewrite !map_map. apply map_ext_in. intros ws Hin.
      destruct (Hws ws Hin) as [Hl _].
      rewrite (nth_indep _ f_nan (Fin 0)) by (rewrite length_map; lia).
      apply map_nth. }
    rewrite E, nanmean_fin, length_map; [reflexivity|].
    destruct wss; [congruence|discriminate]. }
  rewrite (map_ext_in _ _ _ Hcol), <- map_map, np_sum_fin. f_equal.
  rewrite (qsum_map_div (fun j => qsum (map (fun ws => nth j ws 0) wss)) N _ HN).
  rewrite qsum_columns.
  rewrite (map_ext_in _ (fun _ => 1)).
  - rewrite qsum_ones. fold N. field. exact HN.
  - intros ws Hin. destruct (Hws ws Hin) as [Hl Hs]. rewrite <- Hl, map_nth_seq_all. exact Hs.
Qed.


Lemma allocate_ok_mean {F} `{PyFloat F} (gauss : nat -> F) (n : Z) (p p' : Portfolio F) (g g' : nat) :
  allocate gauss n p g = (p', g', None) ->
  exists fr, allocation_trials _ p' = Some fr /\ mean_allocations _ p' = Some (frame_mean fr).
Proof.
  unfold allocate. destruct (n <? 0)%Z; [discriminate|].
  destruct (fill_trials gauss _ _ _ g) as [[fr g1] [e1|]]; [discriminate|].
  intro E. injection E as <- _. exists fr. split; reflexivity.
Qed.

Lemma rows_fin {P : list Qc -> Prop} (rows : list (list xfloat)) :
  (forall row, In row rows -> exists ws, row = map Fin ws /\ P ws) ->
  exists wss, rows = map (map Fin) wss /\ forall ws, In ws wss -> P ws.
Proof.
  induction rows as [|row rows IH]; intro Hr.
  - exists []. split; [reflexivity | intros _ []].
  - destruct (Hr row (or_introl eq_refl)) as (ws & -> & Hws).
    destruct IH as (wss & -> & Hwss); [intros r Hin; apply Hr; right; exact Hin|].
    exists (ws :: wss). split; [reflexivity|]. intros w [<-|Hin]; [exact Hws | exact (Hwss w Hin)].
Qed.

Lemma mean_allocations_sum_one_aux (gauss : nat -> xfloat) (n : Z) (p p' : Portfolio xfloat)
    (g g' : nat) :
  NoDup (keys (stocks _ p)) -> (1 <= n)%Z -> allocate gauss n p g = (p', g', None) ->
  (forall i gi' res, (i < Z.to_nat n)%nat ->
     roll_ratios gauss (stocks _ p) [] (g + 3 * List.length (stocks _ p) * i)%nat = (gi', inr res) ->
     exists qs, map snd res = map Fin qs /\ fold_right Qcplus 0 qs <> 0) ->
  exists m, mean_allocations _ p' = Some m /\ keys m = keys (stocks _ p) /\
    np_sum (map snd m) = Fin 1.
Proof.
  intros Hnd Hn E Hq.
  destruct (allocate_ok_mean gauss n p p' g g' E) as (fr & Hfr & Hm).
  destruct (allocate_trials gauss n p p' g g' None ltac:(lia) E) as (_ & fr' & Hfr' & Hc & Hl & _).
  rewrite Hfr in Hfr'. injection Hfr' as <-.
  destruct (allocate_trial_rows gauss n p p' g g' E) as (fr' & Hfr' & _ & Hpos).
  rewrite Hfr in Hfr'. injection Hfr' as <-.
  exists (frame_mean fr). split; [exact Hm|].
  assert (Hr : forall row, In row (frame_data _ fr) -> exists ws, row = map Fin ws /\
                 (List.length ws = List.length (keys (stocks _ p)) /\ qsum ws = 1)).
  { intros row Hin. apply In_nth_error in Hin as [i Hi].
    assert (Hil : (i < Z.to_nat n)%nat) by (rewrite <- Hl; apply nth_error_Some; congruence).
    destruct (Hpos i Hil) as (gi' & allocs & Ha & Hi'). rewrite Hi in Hi'. injection Hi' as ->.
    destruct (allocate_once_spec gauss _ _ _ _ Hnd Ha) as (rs & Hlen & Hroll & ->).
    rewrite align_combine; [| exact Hnd | rewrite length_map, length_keys; lia].
    destruct (Hq _ _ _ Hil Hroll) as (qs & Hqs & HS).
    rewrite map_snd_combine in Hqs by (rewrite length_keys; lia). subst rs.
    destruct (weights_sum_one qs HS) as [Hw Hs]. rewrite Hw.
    exists (map (fun q => q / fold_right Qcplus 0 qs) qs). split; [rewrite map_map; reflexivity|].
    split; [rewrite length_map, length_keys, <- Hlen, length_map; reflexivity|].
    rewrite <- (map_map (fun q => q / fold_right Qcplus 0 qs) Fin), np_sum_fin in Hs.
    injection Hs as Hs. exact Hs. }
  destruct (rows_fin _ Hr) as (wss & Hd & Hwss).
  destruct fr as [cols data]. cbn [frame_columns frame_data] in * . subst data cols.
  apply frame_mean_sum_one; [|exact Hwss].
  intros ->. simpl in Hl. lia.
Qed.

End MeanSum.

Lemma allocate_raise_mean {F} `{PyFloat F} (gauss : nat -> F) (n : Z) (p p' : Portfolio F)
    (g g' : nat) (e : exn) :
  allocate gauss n p g = (p', g', Some e) -> mean_allocations _ p' = mean_allocations _ p.
Proof.
  unfold allocate. destruct (n <? 0)%Z; [intro E; injection E as <- _ _; reflexivity|].
  destruct (fill_trials gauss _ _ _ g) as [[fr g1] [e1|]]; [|discriminate].
  intro E. injection E as <- _ _. reflexivity.
Qed.

Section Returns.
Context {F : Type} `{PyFloat F}.
Variable gauss : nat -> F.

(** The ratio loop returns exactly when the call of [roll_once] on the
    [j]-th stock, [3 x j] draws after the start, returns. *)
Lemma roll_ratios_returns_iff (items : dict (Stock F)) (acc : dict F) (g : nat) :
  (exists g' res, roll_ratios gauss items acc g = (g', inr res)) <->
  forall j k s, nth_error items j = Some (k, s) ->
    exists gi' t, roll_once gauss s (g + 3 * j)%nat = (gi', inr t).
Proof.
  revert acc g. induction items as [|[k s] items IH]; intros acc g; cbn [roll_ratios].
  - split; [intros _ [|j] k s Hj; discriminate Hj | intros _; exists g, acc; reflexivity].
  - unfold mbind at 1.
    destruct (roll_once gauss s g) as [g1 [e|[[gr v] r]]] eqn:Er.
    + split; [intros (g' & res & Hr); discriminate Hr|].
      intro H0. destruct (H0 0%nat k s eq_refl) as (gi' & t & Ht).
      rewrite Nat.mul_0_r, Nat.add_0_r, Er in Ht. discriminate Ht.
    + pose proof (roll_once_ok_draws gauss s g g1 _ Er) as Hg1.
      rewrite (IH (dict_set acc k r) g1). split.
      * intros H0 [|j] k' s' Hj.
        -- injection Hj as <- <-. rewrite Nat.mul_0_r, Nat.add_0_r, Er. eauto.
        -- replace (g + 3 * S j)%nat with (g1 + 3 * j)%nat by lia. exact (H0 j k' s' Hj).
      * intros H0 j k' s' Hj. replace (g1 + 3 * j)%nat with (g + 3 * S j)%nat by lia.
        exact (H0 (S j) k' s' Hj).
Qed.

(** A trial returns exactly when its ratio loop returns: the division by
    the sum of the ratios never raises. *)
Lemma allocate_once_returns_iff (d : dict (Stock F)) (g : nat) :
  NoDup (keys d) ->
  (exists g' allocs, _allocate_once gauss d g = (g', inr allocs)) <->
  (exists g' res, roll_ratios gauss d [] g = (g', inr res)).
Proof.
  intro Hnd. split.
  - intros (g' & al & Ha). destruct (allocate_once_spec gauss _ _ _ _ Hnd Ha) as (rs & _ & Hroll & _).
    eauto.
  - intros (g' & res & Er).
    destruct (roll_ratios_spec gauss d [] res g g' Hnd (fun _ _ H => H) Er) as (rs & Hl & Hr).
    simpl in Hr. subst res.
    rewrite (allocate_once_of_ratios gauss d rs g g' Hnd Hl Er). eauto.
Qed.

(** The trial loop returns exactly when each of its trials, the [i]-th
    starting [3 x (number of stocks) x i] draws after the first, returns. *)
Lemma fill_trials_returns_iff (d : dict (Stock F)) (idx : list nat) (fr : Frame F) (g : nat) :
  (exists fr' g', fill_trials gauss d idx fr g = (fr', g', None)) <->
  forall i, (i < List.length idx)%nat ->
    exists gi' allocs, _allocate_once gauss d (g + 3 * List.length d * i)%nat = (gi', inr allocs).
Proof.
  revert fr g. induction idx as [|i0 idx IH]; intros fr g; cbn [fill_trials List.length].
  - split; [intros _ i Hi; lia | intros _; exists fr, g; reflexivity].
  - destruct (_allocate_once gauss d g) as [g1 [e|allocs]] eqn:Ea.
    + split; [intros (fr' & g' & H0); discriminate H0|].
      intro H0. destruct (H0 0%nat ltac:(lia)) as (gi' & al & Ha).
      rewrite Nat.mul_0_r, Nat.add_0_r, Ea in Ha. discriminate Ha.
    + pose proof (allocate_once_ok_draws gauss _ _ _ _ Ea) as Hg1. rewrite IH. split.
      * intros H0 [|i] Hi.
        -- rewrite Nat.mul_0_r, Nat.add_0_r, Ea. eauto.
        -- replace (g + 3 * List.length d * S i)%nat with (g1 + 3 * List.length d * i)%nat
             by (rewrite Hg1; nia).
           apply H0. lia.
      * intros H0 i Hi.
        replace (g1 + 3 * List.length d * i)%nat with (g + 3 * List.length d * S i)%nat
          by (rewrite Hg1; nia).
        apply H0. lia.
Qed.

End Returns.

(** ** Properties of the rest of the code *)

(** ** [Stock.__init__] *)

(** X1: in exact arithmetic, the [Stock] constructor raises only
    [ZeroDivisionError], and it raises exactly when the total capital
    (debt balance + preferred stock balance + shares x price) is 0. *)
Theorem stock_init_raises_iff_zero_capital (row : Row xfloat) :
  (forall e, Stock_init row = inl e -> e = ZeroDivisionError) /\
  ((exists e, Stock_init row = inl e) <-> total_capital (stock_attributes row) = Fin 0).
Proof.
  destruct (Stock_init_raise row) as [H1 H2]. split.
  - intros e E. exact (proj1 (H1 e E)).
  - split; [intros [e E]; exact (proj2 (H1 e E)) | intro Hz; eexists; exact (H2 Hz)].
Qed.

(** X2: [roll_once] raises [ValueError] exactly when one of the three
    standard deviations is refused by [np.random.normal] (its sign bit set,
    not nan); it never raises [KeyError]; a call that returns has consumed
    exactly three draws. *)
Theorem roll_once_value_error_iff {F} `{PyFloat F} (gauss : nat -> F) (s : Stock F) (g : nat) :
  ((exists g', roll_once gauss s g = (g', inl ValueError)) <->
   scale_ok (vl_return_on_total_capital_std_dev _ s) &&
   scale_ok (vl_retained_earnings_plowback_ratio_std_dev _ s) &&
   scale_ok (vl_cash_flow_per_share_std_dev _ s) = false) /\
  (forall g' e, roll_once gauss s g = (g', inl e) -> e <> KeyError) /\
  (forall g' t, roll_once gauss s g = (g', inr t) -> g' = S (S (S g))).
Proof.
  split; [apply roll_once_value_error|]. split.
  - intros g' e. apply roll_once_not_key_error.
  - intros g' t. apply roll_once_ok_draws.
Qed.

(** X3: in exact arithmetic, for a stock built from a row with an
    earnings predictability of at most 100%, [roll_once] raises
    [ValueError] exactly when the row's ROTC, plowback ratio or cash flow
    per share is negative. *)
Theorem roll_once_negative_metric_iff (gauss : nat -> xfloat) (row : Row xfloat)
    (s : Stock xfloat) (p r b c : Qc) (g : nat) :
  Stock_init row = inr s ->
  row_VL_Earnings_Predictability _ row = Fin p -> (p <= Q2Qc (inject_Z 100))%Qc ->
  row_VL_ROTC _ row = Fin r -> row_VL_Plowback_Ratio _ row = Fin b ->
  row_VL_Cash_Flow_Per_Share _ row = Fin c ->
  (exists g', roll_once gauss s g = (g', inl ValueError)) <-> (r < 0 \/ b < 0 \/ c < 0)%Qc.
Proof. exact (roll_once_negative_metric gauss row s p r b c g). Qed.

Lemma roll_once_negative_metric_iff_witness :
  Stock_init row_neg_rotc = inr (stock_of_row row_neg_rotc) /\
  row_VL_Earnings_Predictability _ row_neg_rotc = Fin (Q2Qc (inject_Z 100)) /\
  (Q2Qc (inject_Z 100) <= Q2Qc (inject_Z 100))%Qc /\
  row_VL_ROTC _ row_neg_rotc = Fin (Q2Qc (inject_Z (-10))) /\
  row_VL_Plowback_Ratio _ row_neg_rotc = Fin (Q2Qc (inject_Z 100)) /\
  row_VL_Cash_Flow_Per_Share _ row_neg_rotc = Fin (Q2Qc (inject_Z 1)) /\
  ((exists g', roll_once gauss_zero (stock_of_row row_neg_rotc) 0%nat = (g', inl ValueError)) <->
   (Q2Qc (inject_Z (-10)) < 0 \/ Q2Qc (inject_Z 100) < 0 \/ Q2Qc (inject_Z 1) < 0)%Qc).
Proof.
  assert (Hs : Stock_init row_neg_rotc = inr (stock_of_row row_neg_rotc))
    by (vm_compute; reflexivity).
  assert (Hle : (Q2Qc (inject_Z 100) <= Q2Qc (inject_Z 100))%Qc) by apply Qcle_refl.
  split; [exact Hs|]. split; [reflexivity|]. split; [exact Hle|].
  split; [reflexivity|]. split; [reflexivity|]. split; [reflexivity|].
  exact (roll_once_negative_metric_iff gauss_zero row_neg_rotc (stock_of_row row_neg_rotc)
           _ _ _ _ 0%nat Hs eq_refl Hle eq_refl eq_refl eq_refl).
Defined.

(** ** [Portfolio._allocate_once] and [Portfolio.allocate] *)

(** X4: for a stock mapping with distinct keys, an exception of
    [_allocate_once] is one raised by [roll_once] on one of the stocks; in
    particular it is never [KeyError]. *)
Theorem allocate_once_raises_from_sampling {F} `{PyFloat F} (gauss : nat -> F)
    (d : dict (Stock F)) (g g' : nat) (e : exn) :
  NoDup (keys d) -> _allocate_once gauss d g = (g', inl e) ->
  e <> KeyError /\ exists k s g0, In (k, s) d /\ roll_once gauss s g0 = (g', inl e).
Proof.
  intros Hnd E. destruct (allocate_once_raise gauss d g g' e Hnd E) as (k & s & g0 & Hin & Hr).
  split; [exact (roll_once_not_key_error gauss s g0 g' e Hr)|]. exists k, s, g0. split; assumption.
Qed.

Lemma allocate_once_raises_from_sampling_witness :
  let d := [("NOCASH"%string, stock_no_cash)] in
  NoDup (keys d) /\ _allocate_once gauss_zero d 0%nat = (3%nat, inl ZeroDivisionError) /\
  ZeroDivisionError <> KeyError /\
  exists k s g0, In (k, s) d /\ roll_once gauss_zero s g0 = (3%nat, inl ZeroDivisionError).
Proof.
  intro d.
  assert (Hnd : NoDup (keys d)) by (constructor; [intros [] | constructor]).
  assert (E : _allocate_once gauss_zero d 0%nat = (3%nat, inl ZeroDivisionError))
    by (vm_compute; reflexivity).
  split; [exact Hnd|]. split; [exact E|].
  exact (allocate_once_raises_from_sampling gauss_zero d 0%nat 3%nat ZeroDivisionError Hnd E).
Defined.

(** X5: when one stock of the portfolio raises at every draw,
    [allocate(n)] with [n >= 1] raises in its first trial: the trial frame
    is left all zeros, the stocks and the previous mean allocation are
    kept. *)
Theorem allocate_with_failing_stock {F} `{PyFloat F} (gauss : nat -> F) (n : Z)
    (p : Portfolio F) (g : nat) (k : string) (s : Stock F) :
  In (k, s) (stocks _ p) -> (forall g0, exists g1 e, roll_once gauss s g0 = (g1, inl e)) ->
  (1 <= n)%Z ->
  exists g' e, allocate gauss n p g =
    (mkPortfolio (stocks _ p) (mean_allocations _ p)
       (Some (mkFrame (keys (stocks _ p))
                (repeat (repeat (f_of_Z 0) (List.length (keys (stocks _ p)))) (Z.to_nat n)))),
     g', Some e).
Proof.
  intros Hin Hs Hn. unfold allocate.
  replace (n <? 0)%Z with false by (symmetry; apply Z.ltb_ge; lia).
  replace (Z.to_nat n) with (S (Z.to_nat (n - 1))) by lia.
  simpl seq.
  destruct (fill_trials_first_raise gauss (stocks _ p) 0%nat (seq 1 (Z.to_nat (n - 1)))
              (mkFrame (keys (stocks _ p))
                 (repeat (repeat (f_of_Z 0) (List.length (keys (stocks _ p)))) (S (Z.to_nat (n - 1)))))
              g k s Hin Hs) as (g' & e & ->).
  exists g', e. reflexivity.
Qed.

Lemma allocate_with_failing_stock_witness :
  let p := Portfolio_init [("UP"%string, stock_up); ("NOCASH"%string, stock_no_cash)] in
  In ("NOCASH"%string, stock_no_cash) (stocks _ p) /\
  (forall g0, exists g1 e, roll_once gauss_zero stock_no_cash g0 = (g1, inl e)) /\
  (1 <= 2)%Z /\
  exists g' e, allocate gauss_zero 2 p 0%nat =
    (mkPortfolio (stocks _ p) (mean_allocations _ p)
       (Some (mkFrame (keys (stocks _ p))
                (repeat (repeat (f_of_Z 0) (List.length (keys (stocks _ p)))) (Z.to_nat 2)))),
     g', Some e).
Proof.
  intro p.
  assert (Hin : In ("NOCASH"%string, stock_no_cash) (stocks _ p)) by (right; left; reflexivity).
  assert (Hs : forall g0, exists g1 e, roll_once gauss_zero stock_no_cash g0 = (g1, inl e))
    by (intro g0; exists (S (S (S g0))), ZeroDivisionError; vm_compute; reflexivity).
  assert (Hn : (1 <= 2)%Z) by lia.
  split; [exact Hin|]. split; [exact Hs|]. split; [exact Hn|].
  exact (allocate_with_failing_stock gauss_zero 2 p 0%nat "NOCASH"%string stock_no_cash Hin Hs Hn).
Defined.

(** X6: a call of [allocate(n)] that returns has consumed exactly
    [3 x n x (number of stocks)] standard normal draws. *)
Theorem allocate_draw_count {F} `{PyFloat F} (gauss : nat -> F) (n : Z) (p p' : Portfolio F)
    (g g' : nat) :
  allocate gauss n p g = (p', g', None) ->
  g' = (g + 3 * List.length (stocks _ p) * Z.to_nat n)%nat.
Proof. exact (allocate_ok_draws gauss n p p' g g'). Qed.

Lemma allocate_draw_count_witness :
  let p := Portfolio_init [("UP"%string, stock_up)] in
  let r := allocate gauss_zero 2 p 0%nat in
  allocate gauss_zero 2 p 0%nat = (fst (fst r), snd (fst r), None) /\
  snd (fst r) = (0 + 3 * List.length (stocks _ p) * Z.to_nat 2)%nat.
Proof.
  intros p r.
  assert (E : allocate gauss_zero 2 p 0%nat = (fst (fst r), snd (fst r), None))
    by (unfold r; vm_compute; reflexivity).
  split; [exact E|]. exact (allocate_draw_count gauss_zero 2 p (fst (fst r)) 0%nat (snd (fst r)) E).
Defined.

(** X7: in exact arithmetic, for distinct stock names, after an
    [allocate(n)] with [n >= 1] that returns, and when every trial the call
    runs (trial [i] starts [3 x (number of stocks) x i] draws after the
    first) draws finite ratios with a nonzero sum, the mean allocations are
    indexed by the stock names and sum to exactly 1. *)
Theorem mean_allocations_sum_one (gauss : nat -> xfloat) (n : Z) (p p' : Portfolio xfloat)
    (g g' : nat) :
  NoDup (keys (stocks _ p)) -> (1 <= n)%Z -> allocate gauss n p g = (p', g', None) ->
  (forall i gi' res, (i < Z.to_nat n)%nat ->
     roll_ratios gauss (stocks _ p) [] (g + 3 * List.length (stocks _ p) * i)%nat = (gi', inr res) ->
     exists qs, map snd res = map Fin qs /\ fold_right Qcplus 0 qs <> 0) ->
  exists m, mean_allocations _ p' = Some m /\ keys m = keys (stocks _ p) /\
    np_sum (map snd m) = Fin 1.
Proof. exact (mean_allocations_sum_one_aux gauss n p p' g g'). Qed.

Lemma mean_allocations_sum_one_witness :
  let p := Portfolio_init [("A"%string, stock_up); ("B"%string, stock_up)] in
  let r := allocate gauss_two_trials 2 p 0%nat in
  NoDup (keys (stocks _ p)) /\ (1 <= 2)%Z /\
  allocate gauss_two_trials 2 p 0%nat = (fst (fst r), snd (fst r), None) /\
  (forall i gi' res, (i < Z.to_nat 2)%nat ->
     roll_ratios gauss_two_trials (stocks _ p) [] (0 + 3 * List.length (stocks _ p) * i)%nat =
       (gi', inr res) ->
     exists qs, map snd res = map Fin qs /\ fold_right Qcplus 0 qs <> 0) /\
  exists m, mean_allocations _ (fst (fst r)) = Some m /\ keys m = keys (stocks _ p) /\
    np_sum (map snd m) = Fin 1.
Proof.
  intros p r.
  assert (Hnd : NoDup (keys (stocks _ p)))
    by (constructor; [intros [H|[]]; discriminate | constructor; [intros []|constructor]]).
  assert (Hn : (1 <= 2)%Z) by lia.
  assert (E : allocate gauss_two_trials 2 p 0%nat = (fst (fst r), snd (fst r), None))
    by (unfold r; vm_compute; reflexivity).
  assert (Hq : forall i gi' res, (i < Z.to_nat 2)%nat ->
     roll_ratios gauss_two_trials (stocks _ p) [] (0 + 3 * List.length (stocks _ p) * i)%nat =
       (gi', inr res) ->
     exists qs, map snd res = map Fin qs /\ fold_right Qcplus 0 qs <> 0).
  { intros i gi' res Hi Er.
    exists (map (fun x => match x with Fin q => q | _ => 0 end) (map snd res)).
    destruct i as [|[|i]]; [| | cbv in Hi; lia];
      vm_compute in Er; injection Er as _ <-; split; [reflexivity| |reflexivity|];
      intro H0; apply (f_equal this) in H0; vm_compute in H0; discriminate H0. }
  split; [exact Hnd|]. split; [exact Hn|]. split; [exact E|]. split; [exact Hq|].
  exact (mean_allocations_sum_one gauss_two_trials 2 p (fst (fst r)) 0%nat (snd (fst r)) Hnd Hn E Hq).
Defined.

(** ** [import_xlsx] *)

(** X8: a dict returned by [import_xlsx] has distinct keys, exactly the
    names of the rows; each name maps to the [Stock] of the last row with
    that name. *)
Theorem import_xlsx_ok {F} `{PyFloat F} (rows : list (Row F)) (d : dict (Stock F)) :
  import_xlsx rows = inr d ->
  NoDup (keys d) /\ (forall k, In k (keys d) <-> In k (map (row_Stock _) rows)) /\
  forall pre row post, rows = pre ++ row :: post ->
    (forall r, In r post -> row_Stock _ r <> row_Stock _ row) ->
    exists s, Stock_init row = inr s /\ dict_get d (row_Stock _ row) = Some s.
Proof.
  intro E. unfold import_xlsx in E.
  destruct (import_rows_keys rows [] d E) as [Hnd Hk]. split; [apply Hnd; constructor|].
  split; [intro k; rewrite Hk; simpl; tauto|].
  intros pre row post -> Hpost. exact (import_rows_get_last pre post row [] d E Hpost).
Qed.

Lemma import_xlsx_ok_witness :
  let rows := [row_up; row_down; row_up] in
  let d := match import_xlsx rows with inr d => d | inl _ => [] end in
  import_xlsx rows = inr d /\
  NoDup (keys d) /\ (forall k, In k (keys d) <-> In k (map (row_Stock _) rows)) /\
  forall pre row post, rows = pre ++ row :: post ->
    (forall r, In r post -> row_Stock _ r <> row_Stock _ row) ->
    exists s, Stock_init row = inr s /\ dict_get d (row_Stock _ row) = Some s.
Proof.
  intros rows d.
  assert (E : import_xlsx rows = inr d) by (vm_compute; reflexivity).
  split; [exact E|]. exact (import_xlsx_ok rows d E).
Defined.

(** X9: in exact arithmetic, [import_xlsx] raises only
    [ZeroDivisionError], from the first row whose total capital is 0, and it
    returns exactly when no row has a total capital of 0. *)
Theorem import_xlsx_raises_iff_zero_capital (rows : list (Row xfloat)) :
  (forall e, import_xlsx rows = inl e ->
     e = ZeroDivisionError /\
     exists pre row post, rows = pre ++ row :: post /\
       (forall r, In r pre -> total_capital (stock_attributes r) <> Fin 0) /\
       total_capital (stock_attributes row) = Fin 0) /\
  ((exists d, import_xlsx rows = inr d) <->
   forall r, In r rows -> total_capital (stock_attributes r) <> Fin 0).
Proof.
  assert (Hok : forall r : Row xfloat,
            (exists s, Stock_init r = inr s) <-> total_capital (stock_attributes r) <> Fin 0).
  { intro r. destruct (Stock_init_raise r) as [H1 H2]. split.
    - intros [s Hs] Hz. rewrite (H2 Hz) in Hs. discriminate.
    - intro Hnz. destruct (Stock_init r) as [e|s] eqn:Es; [|eauto].
      exfalso. exact (Hnz (proj2 (H1 e eq_refl))). }
  split.
  - intros e E. unfold import_xlsx in E. apply import_rows_raise in E.
    destruct E as (pre & row & post & -> & Hpre & Hr).
    destruct (proj1 (Stock_init_raise row) e Hr) as [-> Hz].
    split; [reflexivity|]. exists pre, row, post. split; [reflexivity|].
    split; [|exact Hz]. intros r Hin. apply Hok, Hpre, Hin.
  - unfold import_xlsx. rewrite import_rows_ok_iff. split.
    + intros Hall r Hin. apply Hok, Hall, Hin.
    + intros Hall r Hin. apply Hok, Hall, Hin.
Qed.

(** ** [Stock.plot_metric_histograms] *)

(** X10: [plot_metric_histograms(n)] raises [ValueError] without
    drawing when [n < 0].  When it returns, the figure is titled with the
    stock's name, each of its three columns has [n] values, row [i] is the
    result of the [i]-th call of [roll_once], and [3n] draws were consumed.
    Any other exception is one raised by one of these calls. *)
Theorem plot_metric_histograms_spec {F} `{PyFloat F} (gauss : nat -> F) (n : Z)
    (s : Stock F) (g : nat) :
  ((n < 0)%Z -> plot_metric_histograms gauss n s g = (g, inl ValueError)) /\
  (forall g' title a b c,
     plot_metric_histograms gauss n s g = (g', inr (title, a, b, c)) ->
     title = stock _ (attrs _ s) /\ g' = (g + 3 * Z.to_nat n)%nat /\
     List.length a = Z.to_nat n /\ List.length b = Z.to_nat n /\ List.length c = Z.to_nat n /\
     forall i, (i < Z.to_nat n)%nat ->
       exists t, roll_once gauss s (g + 3 * i)%nat = ((g + 3 * i + 3)%nat, inr t) /\
         nth_error a i = Some (fst (fst t)) /\ nth_error b i = Some (snd (fst t)) /\
         nth_error c i = Some (snd t)) /\
  (forall g' e, plot_metric_histograms gauss n s g = (g', inl e) ->
     ((n < 0)%Z /\ g' = g /\ e = ValueError) \/
     exists i, (i < Z.to_nat n)%nat /\ roll_once gauss s (g + 3 * i)%nat = (g', inl e)).
Proof.
  unfold plot_metric_histograms. destruct (Z.ltb_spec n 0) as [Hn|Hn].
  - split; [reflexivity|]. split; [discriminate|].
    intros g' e E. injection E as <- <-. left. auto.
  - split; [lia|]. unfold mbind, mret.
    destruct (roll_rows gauss (Z.to_nat n) s g) as [g1 [e1|ts]] eqn:Er.
    + split; [discriminate|]. intros g' e E. injection E as <- <-. right.
      exact (roll_rows_raise gauss _ s g g1 e1 Er).
    + split; [|discriminate].
      intros g' title a b c E. injection E as <- <- <- <- <-.
      destruct (roll_rows_ok gauss _ s g g1 ts Er) as (-> & Hl & Hi).
      rewrite !length_map, Hl. repeat split; try reflexivity.
      intros i Hlt. destruct (nth_error ts i) as [t|] eqn:Et;
        [|apply nth_error_None in Et; lia].
      exists t. split; [exact (Hi i t Et)|].
      rewrite !nth_error_map, Et. destruct t as [[x y] z]. repeat split.
Qed.

(** ** [Portfolio.plot_histograms] and [Portfolio.__repr__] *)

(** X11: on a portfolio never allocated, [plot_histograms] raises
    [AttributeError] when it has a stock, and draws no histogram when it has
    none (the loop never reads [allocation_trials]).  After [allocate(n)]
    with [n >= 0], returned or raised, it draws one histogram per stock, in
    key order, each of [n] values: the weight that a trial gave to the
    stock, or 0 for a trial never reached after an exception. *)
Theorem plot_histograms_spec {F} `{PyFloat F} (gauss : nat -> F) (n : Z)
    (p p' : Portfolio F) (g g' : nat) (e : option exn) :
  (0 <= n)%Z -> allocate gauss n p g = (p', g', e) ->
  plot_histograms (Portfolio_init (stocks _ p)) =
    match stocks _ p with [] => inr [] | _ :: _ => inl AttributeError end /\
  exists hs, plot_histograms p' = inr hs /\ map fst hs = keys (stocks _ p) /\
    forall k col, In (k, col) hs -> List.length col = Z.to_nat n /\
      forall i x, nth_error col i = Some x ->
        (e <> None /\ x = f_of_Z 0) \/
        exists gi gi' allocs, _allocate_once gauss (stocks _ p) gi = (gi', inr allocs) /\
          x = match dict_get allocs k with Some v => v | None => f_nan end.
Proof. exact (plot_histograms_after_allocate gauss n p p' g g' e). Qed.

Lemma plot_histograms_spec_witness :
  let p := Portfolio_init [("UP"%string, stock_up); ("NOCASH"%string, stock_no_cash)] in
  let r := allocate gauss_zero 2 p 0%nat in
  (0 <= 2)%Z /\ allocate gauss_zero 2 p 0%nat = (fst (fst r), snd (fst r), snd r) /\
  plot_histograms (Portfolio_init (stocks _ p)) =
    match stocks _ p with [] => inr [] | _ :: _ => inl AttributeError end /\
  exists hs, plot_histograms (fst (fst r)) = inr hs /\ map fst hs = keys (stocks _ p) /\
    forall k col, In (k, col) hs -> List.length col = Z.to_nat 2 /\
      forall i x, nth_error col i = Some x ->
        (snd r <> None /\ x = f_of_Z 0) \/
        exists gi gi' allocs, _allocate_once gauss_zero (stocks _ p) gi = (gi', inr allocs) /\
          x = match dict_get allocs k with Some v => v | None => f_nan end.
Proof.
  intros p r.
  assert (Hn : (0 <= 2)%Z) by lia.
  assert (E : allocate gauss_zero 2 p 0%nat = (fst (fst r), snd (fst r), snd r))
    by (unfold r; destruct (allocate gauss_zero 2 p 0%nat) as [[a b] c]; reflexivity).
  split; [exact Hn|]. split; [exact E|].
  exact (plot_histograms_spec gauss_zero 2 p (fst (fst r)) 0%nat (snd (fst r)) (snd r) Hn E).
Defined.

(** X12: [repr] of a fresh portfolio is ['Portfolio'].  After an
    [allocate] that returns, it shows the mean of the trial frame, indexed
    by the stock names; after an [allocate] that raises, it is unchanged. *)
Theorem portfolio_repr_spec {F} `{PyFloat F} (gauss : nat -> F) (n : Z)
    (p p' : Portfolio F) (g g' : nat) (e : option exn) :
  allocate gauss n p g = (p', g', e) ->
  Portfolio_repr (Portfolio_init (stocks _ p)) = inl "Portfolio"%string /\
  (e = None -> exists fr, allocation_trials _ p' = Some fr /\
     Portfolio_repr p' = inr (frame_mean fr) /\ keys (frame_mean fr) = keys (stocks _ p)) /\
  (e <> None -> Portfolio_repr p' = Portfolio_repr p).
Proof.
  intro E. split; [reflexivity|]. split.
  - intros ->. destruct (allocate_ok_mean gauss n p p' g g' E) as (fr & Hfr & Hm).
    exists fr. split; [exact Hfr|]. unfold Portfolio_repr. rewrite Hm. split; [reflexivity|].
    assert (Hn : (0 <= n)%Z).
    { unfold allocate in E. destruct (Z.ltb_spec n 0); [discriminate|lia]. }
    destruct (allocate_trials gauss n p p' g g' None Hn E) as (_ & fr' & Hfr' & Hc & _).
    rewrite Hfr in Hfr'. injection Hfr' as <-.
    unfold frame_mean. rewrite keys_combine by (rewrite length_map, length_seq; reflexivity).
    exact Hc.
  - intro He. destruct e as [e|]; [|congruence].
    unfold Portfolio_repr. rewrite (allocate_raise_mean gauss n p p' g g' e E). reflexivity.
Qed.

Lemma portfolio_repr_spec_witness :
  let p := Portfolio_init [("UP"%string, stock_up)] in
  let r := allocate gauss_zero 1 p 0%nat in
  allocate gauss_zero 1 p 0%nat = (fst (fst r), snd (fst r), snd r) /\
  Portfolio_repr (Portfolio_init (stocks _ p)) = inl "Portfolio"%string /\
  (snd r = None -> exists fr, allocation_trials _ (fst (fst r)) = Some fr /\
     Portfolio_repr (fst (fst r)) = inr (frame_mean fr) /\ keys (frame_mean fr) = keys (stocks _ p)) /\
  (snd r <> None -> Portfolio_repr (fst (fst r)) = Portfolio_repr p).
Proof.
  intros p r.
  assert (E : allocate gauss_zero 1 p 0%nat = (fst (fst r), snd (fst r), snd r))
    by (unfold r; destruct (allocate gauss_zero 1 p 0%nat) as [[a b] c]; reflexivity).
  split; [exact E|].
  exact (portfolio_repr_spec gauss_zero 1 p (fst (fst r)) 0%nat (snd (fst r)) (snd r) E).
Defined.

(** ** When [allocate] raises *)

(** X13: for distinct stock names and a count [n >= 0], [allocate(n)]
    returns without raising exactly when, in each of its [n] trials, the
    call of [roll_once] on each stock returns: trial [i] samples the [j]-th
    stock [3 x (number of stocks) x i + 3 x j] draws after the first.  The
    normalization of a trial never raises, whatever the sum of its
    ratios. *)
Theorem allocate_returns_iff {F} `{PyFloat F} (gauss : nat -> F) (n : Z) (p : Portfolio F)
    (g : nat) :
  NoDup (keys (stocks _ p)) -> (0 <= n)%Z ->
  (exists p' g', allocate gauss n p g = (p', g', None)) <->
  forall i j k s, (i < Z.to_nat n)%nat -> nth_error (stocks _ p) j = Some (k, s) ->
    exists gi' t,
      roll_once gauss s (g + 3 * List.length (stocks _ p) * i + 3 * j)%nat = (gi', inr t).
Proof.
  intros Hnd Hn.
  transitivity (exists fr' g', fill_trials gauss (stocks _ p) (seq 0 (Z.to_nat n))
                  (mkFrame (keys (stocks _ p))
                     (repeat (repeat (f_of_Z 0) (List.length (keys (stocks _ p)))) (Z.to_nat n)))
                  g = (fr', g', None)).
  { unfold allocate. replace (n <? 0)%Z with false by (symmetry; apply Z.ltb_ge; exact Hn).
    cbv zeta.
    destruct (fill_trials gauss (stocks _ p) (seq 0 (Z.to_nat n)) _ g) as [[fr g1] [e1|]];
      split; intros (a & b & H0); try discriminate H0; eauto. }
  rewrite fill_trials_returns_iff, length_seq. split.
  - intros H0 i j k s Hi Hj. destruct (H0 i Hi) as (gi' & al & Ha).
    destruct (allocate_once_spec gauss _ _ _ _ Hnd Ha) as (rs & _ & Hroll & _).
    exact (proj1 (roll_ratios_returns_iff gauss _ _ _) (ex_intro _ gi' (ex_intro _ _ Hroll))
             j k s Hj).
  - intros H0 i Hi. apply (allocate_once_returns_iff gauss _ _ Hnd).
    apply roll_ratios_returns_iff. intros j k s Hj. exact (H0 i j k s Hi Hj).
Qed.

Lemma allocate_returns_iff_witness :
  let p := Portfolio_init [("UP"%string, stock_up); ("NOCASH"%string, stock_no_cash)] in
  NoDup (keys (stocks _ p)) /\ (0 <= 2)%Z /\
  ((exists p' g', allocate gauss_zero 2 p 0%nat = (p', g', None)) <->
   forall i j k s, (i < Z.to_nat 2)%nat -> nth_error (stocks _ p) j = Some (k, s) ->
     exists gi' t,
       roll_once gauss_zero s (0 + 3 * List.length (stocks _ p) * i + 3 * j)%nat = (gi', inr t)).
Proof.
  intro p.
  assert (Hnd : NoDup (keys (stocks _ p)))
    by (constructor; [intros [H0|[]]; discriminate | constructor; [intros []|constructor]]).
  assert (Hn : (0 <= 2)%Z) by lia.
  split; [exact Hnd|]. split; [exact Hn|].
  exact (allocate_returns_iff gauss_zero 2 p 0%nat Hnd Hn).
Defined.
